(** * Task Management API: a shallow embedding of the request layer

    The development follows the repository file by file:
    - [models/Task.ts] and [models/User.ts]: the two schemas, their setters
      and validators;
    - [middleware/auth.ts]: the identity resolver [authMiddleware];
    - [routes/tasks.ts]: the five route handlers;
    - [index.ts]: the global error handler and the wiring of the routes.

    The document store is modelled by two finite maps: the task collection,
    keyed by the store-assigned [_id] (the unique index every collection
    has), and the identity collection, keyed by the [userId] path (declared
    [unique] in the schema).  Handlers are state-passing functions that
    either reply or throw; what is thrown reaches [errorHandler].

    The behaviour of the object-document mapper and of the store is the
    documented one: setters ([trim]) run on documents, on the paths of an
    update and on query filters; validators run on [create] and, with
    [runValidators], on the paths an update sets, before anything is
    written; a filter whose [_id] is malformed raises a [CastError]; the
    unique indexes refuse a second document with the same key.

    Request bodies and query strings are objects whose properties hold
    strings, as the interfaces of [routes/tasks.ts] declare them; an absent
    property is [undefined].  Strings are sequences of 8-bit characters.
    An identifier is the 96-bit number its 24 hexadecimal digits denote.
    JavaScript numbers are
    integers together with [NaN] and [Infinity]; the integers that occur
    (page numbers, page sizes, counts) are taken to be exact, that is below
    2^53 in absolute value, and negative zero is identified with zero. *)

From Stdlib Require Import ZArith String Ascii.
From stdpp Require Import base option gmap strings list sorting.

Local Open Scope Z_scope.

(** ** JavaScript values used by the handlers *)

(** Truthiness of a string: only the empty string is falsy. *)
Definition truthy (s : string) : bool :=
  match s with
  | EmptyString => false
  | String _ _ => true
  end.

(** The characters [String.prototype.trim] removes, restricted to code
    units below 256: TAB, LF, VT, FF, CR, SPACE and NBSP. *)
Definition is_white_space (c : ascii) : bool :=
  let n := N_of_ascii c in
  ((9 <=? n) && (n <=? 13) || (n =? 32) || (n =? 160))%N.

Fixpoint trimStart (s : string) : string :=
  match s with
  | EmptyString => EmptyString
  | String c r => if is_white_space c then trimStart r else s
  end.

Definition trimEnd (s : string) : string :=
  String.rev (trimStart (String.rev s)).

Definition trim (s : string) : string := trimEnd (trimStart s).

(** A JavaScript number as the handlers meet it. *)
Inductive JsNumber :=
| Num (z : Z)
| NaN
| Infinity.

(** [Number.MAX_SAFE_INTEGER], 2^53 - 1: up to it integers are numbers
    without rounding.  [parseInt], [js_sub], [js_mul] and [ceil_div] below
    are the exact operations on integers; they are what JavaScript
    computes as long as the integers read, the difference, the product
    and the count divided stay within this bound, and every property that
    mentions their results assumes so. *)
Definition MAX_SAFE_INTEGER : Z := 9007199254740991.

Definition digit_of (c : ascii) : option Z :=
  let n := Z.of_N (N_of_ascii c) in
  if (48 <=? n) && (n <=? 57) then Some (n - 48) else None.

Fixpoint parse_digits (acc : Z) (s : string) : Z :=
  match s with
  | EmptyString => acc
  | String c r =>
      match digit_of c with
      | Some d => parse_digits (10 * acc + d) r
      | None => acc
      end
  end.

Definition starts_with_digit (s : string) : bool :=
  match s with
  | EmptyString => false
  | String c _ => bool_decide (is_Some (digit_of c))
  end.

(** [parseInt(s, 10)]: leading white space is skipped, one sign is
    accepted, then the longest run of decimal digits is read; no digit
    gives [NaN].  The result is the integer the digits denote, which is
    JavaScript's result up to [MAX_SAFE_INTEGER]; beyond it JavaScript
    rounds. *)
Definition parseInt (s : string) : JsNumber :=
  let s := trimStart s in
  let '(sign, s) :=
    match s with
    | String "-"%char r => (-1, r)
    | String "+"%char r => (1, r)
    | _ => (1, s)
    end in
  if starts_with_digit s then Num (sign * parse_digits 0 s) else NaN.

Definition js_sub (a b : JsNumber) : JsNumber :=
  match a, b with
  | Num x, Num y => Num (x - y)
  | _, _ => NaN
  end.

Definition js_mul (a b : JsNumber) : JsNumber :=
  match a, b with
  | Num x, Num y => Num (x * y)
  | _, _ => NaN
  end.

(** [Math.ceil(total / limit)] for a count [total >= 0]: division by zero
    is [Infinity], or [NaN] for 0/0. *)
Definition ceil_div (total : Z) (limit : JsNumber) : JsNumber :=
  match limit with
  | Num l =>
      if l =? 0 then (if total =? 0 then NaN else Infinity)
      else Num (- ((- total) / l))
  | _ => NaN
  end.

(** ** Errors

    An exception as [index.ts] looks at it: [name], [statusCode] and
    [message].  A [message] of [None] is a text composed by a library. *)
Record JsError := {
  name : string;
  statusCode : option Z;
  message : option string
}.

(** Modelled from the spec: [utils/errors.ts] is not among the sources; the
    spec maps [NotFound] to 404 and [ValidationError] to 400, and [index.ts]
    reads the [statusCode] the custom errors carry. *)
Definition NotFoundError (msg : string) : JsError :=
  {| name := "NotFoundError"; statusCode := Some 404; message := Some msg |}.

(** Modelled from the spec: see [NotFoundError]. *)
Definition ValidationError (msg : string) : JsError :=
  {| name := "ValidationError"; statusCode := Some 400; message := Some msg |}.

(** Errors raised by the object-document mapper and the store driver. *)
Definition CastError : JsError :=
  {| name := "CastError"; statusCode := None; message := None |}.

Definition MongooseValidationError : JsError :=
  {| name := "ValidationError"; statusCode := None; message := None |}.

Definition MongoServerError : JsError :=
  {| name := "MongoServerError"; statusCode := None; message := None |}.

(** The router's own rejection of a query string that fails the route
    schema; it carries [statusCode] 400, which is all that is used of it. *)
Definition SchemaValidationError : JsError :=
  {| name := "Error"; statusCode := Some 400; message := None |}.

(** A computation that returns or throws. *)
Inductive Result (A : Type) :=
| Ok (a : A)
| Throw (e : JsError).
Arguments Ok {A} a.
Arguments Throw {A} e.

Definition bind {A B} (m : Result A) (k : A -> Result B) : Result B :=
  match m with
  | Ok a => k a
  | Throw e => Throw e
  end.

Notation "'try!' x <- m ; k" := (bind m (fun x => k))
  (at level 10, x name, m at level 100, k at level 200,
   format "'[v' 'try!'  x  <-  m ; '/' k ']'").

(** ** models/Task.ts *)

Inductive TaskStatus := TODO | IN_PROGRESS | DONE | ARCHIVED.

Definition TaskStatus_value (s : TaskStatus) : string :=
  match s with
  | TODO => "To do"
  | IN_PROGRESS => "In Progress"
  | DONE => "Done"
  | ARCHIVED => "Archived"
  end.

(** [Object.values(TaskStatus)] *)
Definition TaskStatus_values : list string :=
  map TaskStatus_value [TODO; IN_PROGRESS; DONE; ARCHIVED].

Definition includes (l : list string) (s : string) : bool :=
  bool_decide (s ∈ l).

(** A task document without its [_id], which is the key of the collection. *)
Record ITask := {
  title : string;
  description : string;
  status : string;
  userId : string;
  createdAt : Z;
  updatedAt : Z
}.

Abbreviation ObjectId := N (only parsing).
Abbreviation TaskDoc := (N * ITask)%type (only parsing).

(** The validators of [TaskSchema], path by path.  They see the value after
    the path's setter ([trim]) has run.  [required] on a string path rejects
    the empty string. *)
Definition valid_title (v : string) : bool :=
  truthy v && (String.length v <=? 200)%nat.

Definition valid_description (v : string) : bool :=
  truthy v && (String.length v <=? 2000)%nat.

Definition valid_status (v : string) : bool :=
  truthy v && includes TaskStatus_values v.

Definition valid_userId (v : string) : bool := truthy v.

(** An identifier in its wire form is 24 hexadecimal digits. *)
Definition hex_digit (c : ascii) : option N :=
  let n := N_of_ascii c in
  (if (48 <=? n) && (n <=? 57) then Some (n - 48)
   else if (97 <=? n) && (n <=? 102) then Some (n - 87)
   else if (65 <=? n) && (n <=? 70) then Some (n - 55)
   else None)%N.

Fixpoint parse_hex (acc : N) (s : string) : option N :=
  match s with
  | EmptyString => Some acc
  | String c r =>
      match hex_digit c with
      | Some d => parse_hex (16 * acc + d)%N r
      | None => None
      end
  end.

Definition castObjectId (s : string) : option N :=
  if (String.length s =? 24)%nat then parse_hex 0%N s else None.

(** ** The document store *)

(** The two collections: tasks keyed by [_id]; identities keyed by their
    unique [userId] path, holding [createdAt]. *)
Abbreviation TaskCollection := (gmap N ITask) (only parsing).
Abbreviation UserCollection := (gmap string Z) (only parsing).

Record Db := {
  tasks : TaskCollection;
  users : UserCollection
}.

(** What the environment supplies to one request: the identifier the driver
    generates for an inserted document, and the clock ([Date.now]). *)
Record Env := {
  new_id : N;
  now : Z
}.

(** ** models/User.ts

    [userId] is [required], [unique] and has the [trim] setter, which runs
    on documents and on query filters alike. *)
Definition User_findOne (coll : UserCollection) (userId0 : string)
    : option Z :=
  coll !! trim userId0.

Definition User_create (coll : UserCollection) (userId0 : string) (now0 : Z)
    : Result UserCollection :=
  let v := trim userId0 in
  if truthy v then
    match coll !! v with
    | Some _ => Throw MongoServerError (* E11000 duplicate key *)
    | None => Ok (<[v := now0]> coll)
    end
  else Throw MongooseValidationError.

(** ** The queries of the [Task] model used by the routes *)

(** [Task.create]: setters, then document validation, then the insert,
    which the unique index on [_id] may refuse.  [timestamps: true] sets
    both timestamps to the current time. *)
Definition Task_create (coll : TaskCollection)
    (title0 description0 status0 userId0 : string) (env : Env)
    : Result (TaskCollection * TaskDoc) :=
  let t := {| title := trim title0; description := trim description0;
              status := status0; userId := userId0;
              createdAt := now env; updatedAt := now env |} in
  if valid_title (title t) && valid_description (description t)
     && valid_status (status t) && valid_userId (userId t)
  then
    match coll !! new_id env with
    | Some _ => Throw MongoServerError
    | None => Ok (<[new_id env := t]> coll, (new_id env, t))
    end
  else Throw MongooseValidationError.

(** The filter [{ _id: o, userId }] on the collection. *)
Definition lookup_owned (coll : TaskCollection) (o : N) (userId0 : string)
    : option ITask :=
  match coll !! o with
  | Some t => if decide (userId t = userId0) then Some t else None
  | None => None
  end.

(** [Task.findOne({ _id: id, userId })]: casting the filter fails on a
    malformed identifier. *)
Definition Task_findOne (coll : TaskCollection) (id userId0 : string)
    : Result (option TaskDoc) :=
  match castObjectId id with
  | None => Throw CastError
  | Some o => Ok (pair o <$> lookup_owned coll o userId0)
  end.

(** The filter [{ userId, status? }] of the list route. *)
Definition matches (userId0 : string) (status0 : option string)
    (d : TaskDoc) : Prop :=
  userId d.2 = userId0 ∧
  match status0 with
  | Some s => status d.2 = s
  | None => True
  end.

Global Instance matches_dec userId0 status0 d :
  Decision (matches userId0 status0 d).
Proof. unfold matches. destruct status0; apply _. Defined.

(** [sort({ createdAt: -1 })] *)
Definition newer (a b : TaskDoc) : Prop := createdAt b.2 ≤ createdAt a.2.

Global Instance newer_dec : RelDecision newer.
Proof. intros a b. unfold newer. apply _. Defined.

Definition matching (coll : TaskCollection) (userId0 : string)
    (status0 : option string) : list TaskDoc :=
  filter (matches userId0 status0) (map_to_list coll).

(** [Task.find(query).sort({ createdAt: -1 }).skip(skip).limit(limit)].
    The store refuses a negative or non-numeric [skip] and a non-numeric
    [limit]; a [limit] of 0 means no limit, and the driver sends a negative
    [limit] as its absolute value. *)
Definition Task_find (coll : TaskCollection) (userId0 : string)
    (status0 : option string) (skip limit0 : JsNumber)
    : Result (list TaskDoc) :=
  match skip, limit0 with
  | Num s, Num l =>
      if s <? 0 then Throw MongoServerError
      else
        let sorted := merge_sort newer (matching coll userId0 status0) in
        let rest := drop (Z.to_nat s) sorted in
        Ok (if l =? 0 then rest else take (Z.to_nat (Z.abs l)) rest)
  | _, _ => Throw MongoServerError
  end.

Definition Task_countDocuments (coll : TaskCollection) (userId0 : string)
    (status0 : option string) : Z :=
  Z.of_nat (length (matching coll userId0 status0)).

(** The validators [runValidators: true] runs on an update: those of the
    paths the [$set] names, on the values their setters produce. *)
Definition update_validators (updateData : gmap string string) : bool :=
  from_option valid_title true (trim <$> updateData !! "title"%string)
  && from_option valid_description true
       (trim <$> updateData !! "description"%string)
  && from_option valid_status true (updateData !! "status"%string)
  && from_option valid_userId true (updateData !! "userId"%string).

(** [{ $set: updateData }] applied to a document: every path of the
    schema that [updateData] names is overwritten, [userId] like the
    others, and a name that is no path of the schema is dropped.
    [timestamps] adds [updatedAt] to the [$set] and keeps [createdAt]. *)
Definition apply_set (t : ITask) (updateData : gmap string string) (now0 : Z)
    : ITask :=
  {| title := default (title t) (trim <$> updateData !! "title"%string);
     description :=
       default (description t) (trim <$> updateData !! "description"%string);
     status := default (status t) (updateData !! "status"%string);
     userId := default (userId t) (updateData !! "userId"%string);
     createdAt := createdAt t;
     updatedAt := now0 |}.

(** [Task.findOneAndUpdate({ _id: id, userId }, { $set: updateData },
    { new: true, runValidators: true })]: the filter is cast, the update
    is validated, and only then is the matching document, if any,
    written. *)
Definition Task_findOneAndUpdate (coll : TaskCollection) (id userId0 : string)
    (updateData : gmap string string) (env : Env)
    : Result (TaskCollection * option TaskDoc) :=
  match castObjectId id with
  | None => Throw CastError
  | Some o =>
      if update_validators updateData then
        match lookup_owned coll o userId0 with
        | Some t =>
            let t' := apply_set t updateData (now env) in
            Ok (<[o := t']> coll, Some (o, t'))
        | None => Ok (coll, None)
        end
      else Throw MongooseValidationError
  end.

(** [Task.findOneAndDelete({ _id: id, userId })] *)
Definition Task_findOneAndDelete (coll : TaskCollection) (id userId0 : string)
    : Result (TaskCollection * option TaskDoc) :=
  match castObjectId id with
  | None => Throw CastError
  | Some o =>
      match lookup_owned coll o userId0 with
      | Some t => Ok (delete o coll, Some (o, t))
      | None => Ok (coll, None)
      end
  end.

(** ** Replies *)

Record Pagination := {
  page : JsNumber;
  limit : JsNumber;
  total : Z;
  totalPages : JsNumber
}.

Inductive Payload :=
| SendNothing
| SendData (data : TaskDoc)
| SendPage (data : list TaskDoc) (pagination : Pagination)
| SendError (error : string) (message0 : option string).

Record Reply := {
  code : Z;
  payload : Payload
}.

(** ** middleware/auth.ts *)

(** How the [preHandler] hook ends: the identity is bound to the request,
    or the hook has replied itself. *)
Inductive Hooked :=
| Bound (userId0 : string)
| Replied (r : Reply).

Definition unauthorized : Reply :=
  {| code := 401;
     payload := SendError "Unauthorized"
                  (Some "x-user-id header is required"%string) |}.

Definition failed_to_authenticate : Reply :=
  {| code := 500;
     payload := SendError "Internal Server Error"
                  (Some "Failed to authenticate user"%string) |}.

(** The part of [authMiddleware] that runs once [User.findOne] has
    answered [user], on the collection as it is by then. *)
Definition auth_provision (coll : UserCollection) (userId0 : string)
    (user : option Z) (now0 : Z) : UserCollection * Hooked :=
  let created :=
    match user with
    | Some _ => Ok coll
    | None => User_create coll userId0 now0
    end in
  match created with
  | Ok coll' => (coll', Bound userId0)
  | Throw _ => (coll, Replied failed_to_authenticate)
  end.

(** [authMiddleware] run without another request in between its two store
    calls. *)
Definition authMiddleware (coll : UserCollection) (x_user_id : option string)
    (now0 : Z) : UserCollection * Hooked :=
  match x_user_id with
  | Some userId0 =>
      if truthy userId0 then
        auth_provision coll userId0 (User_findOne coll userId0) now0
      else (coll, Replied unauthorized)
  | None => (coll, Replied unauthorized)
  end.

(** ** routes/tasks.ts *)

(** Truthiness of a destructured property that may be [undefined]. *)
Definition truthy_opt (v : option string) : bool := from_option truthy false v.

(** GET /tasks *)
Definition list_tasks (coll : TaskCollection) (userId0 : string)
    (query : gmap string string) : Result Reply :=
  let status0 := query !! "status"%string in
  let pageParam := default "1"%string (query !! "page"%string) in
  let limitParam := default "50"%string (query !! "limit"%string) in
  let page0 := parseInt pageParam in
  let limit0 := parseInt limitParam in
  let query_status := if truthy_opt status0 then status0 else None in
  let skip := js_mul (js_sub page0 (Num 1)) limit0 in
  try! found <- Task_find coll userId0 query_status skip limit0;
  let total0 := Task_countDocuments coll userId0 query_status in
  Ok {| code := 200;
        payload := SendPage found
                     {| page := page0; limit := limit0; total := total0;
                        totalPages := ceil_div total0 limit0 |} |}.

(** GET /tasks/:id *)
Definition get_task (coll : TaskCollection) (userId0 id : string)
    : Result Reply :=
  let attempt :=
    try! task <- Task_findOne coll id userId0;
    match task with
    | None => Throw (NotFoundError "Task not found")
    | Some d => Ok {| code := 200; payload := SendData d |}
    end in
  match attempt with
  | Ok r => Ok r
  | Throw e =>
      if decide (name e = "CastError"%string) then
        Ok {| code := 400;
              payload := SendError "Validation Error"
                           (Some "Invalid task ID format"%string) |}
      else Throw e
  end.

(** POST /tasks *)
Definition create_task (coll : TaskCollection) (userId0 : string)
    (body : gmap string string) (env : Env)
    : Result (TaskCollection * Reply) :=
  let title0 := body !! "title"%string in
  let description0 := body !! "description"%string in
  let status0 := default (TaskStatus_value TODO) (body !! "status"%string) in
  if negb (truthy_opt title0) || negb (truthy_opt description0) then
    Throw (ValidationError "Title and description are required")
  else if truthy status0 && negb (includes TaskStatus_values status0) then
    Throw (ValidationError ("Invalid status: " +:+ status0))
  else
    try! task <- Task_create coll (default ""%string title0)
                   (default ""%string description0) status0 userId0 env;
    Ok (task.1, {| code := 201; payload := SendData task.2 |}).

(** The [updateData] object PATCH builds from the three destructured
    properties. *)
Definition build_updateData (title0 description0 status0 : option string)
    : gmap string string :=
  let updateData : gmap string string := ∅ in
  let updateData :=
    match title0 with
    | Some v => <["title"%string := v]> updateData
    | None => updateData
    end in
  let updateData :=
    match description0 with
    | Some v => <["description"%string := v]> updateData
    | None => updateData
    end in
  match status0 with
  | Some v => <["status"%string := v]> updateData
  | None => updateData
  end.

(** PATCH /tasks/:id *)
Definition update_task (coll : TaskCollection) (userId0 id : string)
    (body : gmap string string) (env : Env)
    : Result (TaskCollection * Reply) :=
  let title0 := body !! "title"%string in
  let description0 := body !! "description"%string in
  let status0 := body !! "status"%string in
  if truthy_opt status0
     && negb (from_option (includes TaskStatus_values) false status0) then
    Throw (ValidationError ("Invalid status: " +:+ default ""%string status0))
  else
    let updateData := build_updateData title0 description0 status0 in
    if decide (size updateData = 0%nat) then
      Throw (ValidationError "No valid fields provided for update")
    else
      try! updated <- Task_findOneAndUpdate coll id userId0 updateData env;
      match updated.2 with
      | None => Throw (NotFoundError "Task not found")
      | Some d => Ok (updated.1, {| code := 200; payload := SendData d |})
      end.

(** DELETE /tasks/:id *)
Definition delete_task (coll : TaskCollection) (userId0 id : string)
    : Result (TaskCollection * Reply) :=
  try! deleted <- Task_findOneAndDelete coll id userId0;
  match deleted.2 with
  | None => Throw (NotFoundError "Task not found")
  | Some _ => Ok (deleted.1, {| code := 204; payload := SendNothing |})
  end.

(** ** index.ts *)

(** The global error handler. *)
Definition errorHandler (e : JsError) : Reply :=
  let statusCode0 :=
    match statusCode e with
    | Some c => if c =? 0 then 500 else c
    | None => 500
    end in
  let '(statusCode1, message1) :=
    if decide (name e = "CastError"%string) then
      (400, Some "Invalid task ID format"%string)
    else if decide (name e = "ValidationError"%string) then
      (400, message e)
    else (statusCode0, message e) in
  {| code := statusCode1;
     payload :=
       SendError (if truthy (name e) then name e
                  else "Internal Server Error"%string)
                 (if statusCode1 =? 500
                  then Some "An unexpected error occurred"%string
                  else message1) |}.

(** The five routes registered under the prefix. *)
Inductive Route :=
| GET_tasks (query : gmap string string)
| GET_task (id : string)
| POST_tasks (body : gmap string string)
| PATCH_task (id : string) (body : gmap string string)
| DELETE_task (id : string).

Record Request := {
  x_user_id : option string;
  route : Route
}.

(** The request of a caller who sends [userId0] in the [x-user-id]
    header. *)
Definition as_user (userId0 : string) (rt : Route) : Request :=
  {| x_user_id := Some userId0; route := rt |}.

(** The [querystring] schema of GET /tasks: [status], when given, is one of
    the enum values.  The router checks it before the [preHandler] hook. *)
Definition validate_schema (r : Route) : Result unit :=
  match r with
  | GET_tasks query =>
      match query !! "status"%string with
      | Some s =>
          if includes TaskStatus_values s then Ok ()
          else Throw SchemaValidationError
      | None => Ok ()
      end
  | _ => Ok ()
  end.

Definition run_handler (coll : TaskCollection) (env : Env) (userId0 : string)
    (r : Route) : Result (TaskCollection * Reply) :=
  match r with
  | GET_tasks query => try! rep <- list_tasks coll userId0 query; Ok (coll, rep)
  | GET_task id => try! rep <- get_task coll userId0 id; Ok (coll, rep)
  | POST_tasks body => create_task coll userId0 body env
  | PATCH_task id body => update_task coll userId0 id body env
  | DELETE_task id => delete_task coll userId0 id
  end.

(** A handler's outcome as the client and the task collection see it:
    what is thrown goes through [errorHandler] and leaves the collection as
    it was. *)
Definition respond (coll : TaskCollection)
    (r : Result (TaskCollection * Reply)) : TaskCollection * Reply :=
  match r with
  | Ok out => out
  | Throw e => (coll, errorHandler e)
  end.

(** One request through the application: schema validation, the
    [preHandler] hook, the route handler, and the error handler for
    whatever is thrown. *)
Definition handle (db : Db) (env : Env) (req : Request) : Db * Reply :=
  match validate_schema (route req) with
  | Throw e => (db, errorHandler e)
  | Ok _ =>
      let '(users1, hooked) :=
        authMiddleware (users db) (x_user_id req) (now env) in
      match hooked with
      | Replied r => ({| tasks := tasks db; users := users1 |}, r)
      | Bound userId0 =>
          let '(tasks1, r) :=
            respond (tasks db) (run_handler (tasks db) env userId0 (route req)) in
          ({| tasks := tasks1; users := users1 |}, r)
      end
  end.

(** A run of requests, each with what the environment supplies to it. *)
Fixpoint run (db : Db) (reqs : list (Env * Request)) : Db :=
  match reqs with
  | [] => db
  | (env, req) :: rest => run (handle db env req).1 rest
  end.

(** * Definitions used to state the properties *)

(** The bodies PATCH lets through to the store: at least one of the three
    fields is given, and each given field passes the validators of its
    path once the path's setter has run. *)
Definition patch_accepted (body : gmap string string) : bool :=
  let title0 := body !! "title"%string in
  let description0 := body !! "description"%string in
  let status0 := body !! "status"%string in
  negb (bool_decide (title0 = None ∧ description0 = None ∧ status0 = None))
  && from_option valid_title true (trim <$> title0)
  && from_option valid_description true (trim <$> description0)
  && from_option valid_status true status0.

(** The document PATCH writes over [t]. *)
Definition patched (t : ITask) (body : gmap string string) (now0 : Z) : ITask :=
  {| title := default (title t) (trim <$> body !! "title"%string);
     description :=
       default (description t) (trim <$> body !! "description"%string);
     status := default (status t) (body !! "status"%string);
     userId := userId t;
     createdAt := createdAt t;
     updatedAt := now0 |}.

(** The three ways PATCH can end, as the client and the collection see
    them. *)
Inductive update_outcome (coll : gmap N ITask) (userId0 id : string)
    (body : gmap string string) (env : Env)
    : gmap N ITask * Reply → Prop :=
| update_rejected r :
    code r = 400 →
    patch_accepted body = false ∨ castObjectId id = None →
    update_outcome coll userId0 id body env (coll, r)
| update_not_found o :
    castObjectId id = Some o →
    lookup_owned coll o userId0 = None →
    patch_accepted body = true →
    update_outcome coll userId0 id body env
      (coll, errorHandler (NotFoundError "Task not found"))
| update_applied o t :
    castObjectId id = Some o →
    lookup_owned coll o userId0 = Some t →
    patch_accepted body = true →
    update_outcome coll userId0 id body env
      (<[o := patched t body (now env)]> coll,
       {| code := 200; payload := SendData (o, patched t body (now env)) |}).

(** The document POST inserts for [body] under the identity [userId0]. *)
Definition created (userId0 : string) (body : gmap string string) (now0 : Z)
    : ITask :=
  {| title := trim (default ""%string (body !! "title"%string));
     description := trim (default ""%string (body !! "description"%string));
     status := default (TaskStatus_value TODO) (body !! "status"%string);
     userId := userId0;
     createdAt := now0;
     updatedAt := now0 |}.

(** The three ways POST can end: refused by validation, refused by the
    unique index on [_id], or inserted. *)
Inductive create_outcome (coll : gmap N ITask) (userId0 : string)
    (body : gmap string string) (env : Env)
    : gmap N ITask * Reply → Prop :=
| create_rejected r :
    code r = 400 →
    create_outcome coll userId0 body env (coll, r)
| create_duplicate r :
    code r = 500 →
    valid_status (status (created userId0 body (now env))) = true →
    is_Some (coll !! new_id env) →
    create_outcome coll userId0 body env (coll, r)
| create_done :
    valid_status (status (created userId0 body (now env))) = true →
    coll !! new_id env = None →
    create_outcome coll userId0 body env
      (<[new_id env := created userId0 body (now env)]> coll,
       {| code := 201;
          payload := SendData (new_id env, created userId0 body (now env)) |}).

(** ** A small scenario for concrete runs *)

Definition task_A : ITask :=
  {| title := "A"; description := "B"; status := "To do"; userId := "u1";
     createdAt := 100; updatedAt := 100 |}.

(** The store after identity [u1] has created one task, which got the
    identifier [000000000000000000000001]. *)
Definition db_one : Db :=
  {| tasks := {[ 1%N := task_A ]}; users := {[ "u1"%string := 100 ]} |}.

Definition id_one : string := "000000000000000000000001".

Definition env_later : Env := {| new_id := 2%N; now := 200 |}.

Definition db_empty : Db := {| tasks := ∅; users := ∅ |}.

Definition env_first : Env := {| new_id := 1%N; now := 100 |}.

Definition body_A : gmap string string :=
  {[ "title"%string := "A"%string; "description"%string := "B"%string ]}.

(** Three tasks of [u1] and one of [u2], created at different times. *)
Definition db_four : Db :=
  {| tasks :=
       {[ 1%N := task_A;
          2%N := {| title := "C"; description := "D"; status := "Done";
                    userId := "u1"; createdAt := 200; updatedAt := 250 |};
          3%N := {| title := "E"; description := "F"; status := "To do";
                    userId := "u2"; createdAt := 300; updatedAt := 300 |};
          4%N := {| title := "G"; description := "H"; status := "Archived";
                    userId := "u1"; createdAt := 400; updatedAt := 400 |} ]};
     users := {[ "u1"%string := 100; "u2"%string := 300 ]} |}.

(** The task [o], while it is stored, belongs to [u]. *)
Definition owned_or_gone (o : N) (u : string) (coll : gmap N ITask) : Prop :=
  ∀ t, coll !! o = Some t → userId t = u.

(** ** Definitions for the properties of the whole request layer *)

(** A document that passes every validator of [TaskSchema]. *)
Definition schema_valid (t : ITask) : bool :=
  valid_title (title t) && valid_description (description t)
  && valid_status (status t) && valid_userId (userId t).

(** Every stored task passes the validators of its schema. *)
Definition store_valid (coll : gmap N ITask) : Prop :=
  ∀ o t, coll !! o = Some t → schema_valid t = true.

(** The bodies POST lets through to the insert: [title] and [description]
    are given and not empty, and they and [status] (or its default) pass
    the validators of their paths once the setters have run. *)
Definition create_accepted (body : gmap string string) : bool :=
  truthy_opt (body !! "title"%string)
  && truthy_opt (body !! "description"%string)
  && valid_title (trim (default ""%string (body !! "title"%string)))
  && valid_description (trim (default ""%string (body !! "description"%string)))
  && valid_status (default (TaskStatus_value TODO) (body !! "status"%string)).

(** The status codes the application answers with. *)
Definition reply_codes : list Z := [200; 201; 204; 400; 401; 404; 500].

(** The task [o], while it is stored, was created at [c]. *)
Definition created_at_or_gone (o : N) (c : Z) (coll : gmap N ITask) : Prop :=
  ∀ t, coll !! o = Some t → createdAt t = c.

(** * Properties *)

(** ** The identity resolver and the request pipeline *)

Lemma truthy_trim (s : string) : truthy (trim s) = true → truthy s = true.
Proof. destruct s; [ discriminate | reflexivity ]. Qed.

(** A token that survives [trim] is always bound when the hook runs
    undisturbed. *)
Lemma authMiddleware_binds coll userId0 now0 :
  truthy (trim userId0) = true →
  ∃ coll', authMiddleware coll (Some userId0) now0 = (coll', Bound userId0).
Proof.
  intros Htrim. unfold authMiddleware.
  rewrite (truthy_trim _ Htrim).
  unfold auth_provision, User_findOne, User_create.
  destruct (coll !! trim userId0) as [c|] eqn:Hfound.
  - eauto.
  - rewrite Htrim. eauto.
Qed.

(** Past schema validation and the hook, a request is its handler's
    outcome. *)
Lemma handle_resolved db env userId0 rt :
  truthy (trim userId0) = true →
  validate_schema rt = Ok () →
  tasks (handle db env (as_user userId0 rt)).1
    = (respond (tasks db) (run_handler (tasks db) env userId0 rt)).1
  ∧ (handle db env (as_user userId0 rt)).2
    = (respond (tasks db) (run_handler (tasks db) env userId0 rt)).2.
Proof.
  intros Htrim Hschema. unfold handle, as_user. cbn [route x_user_id].
  rewrite Hschema.
  destruct (authMiddleware_binds (users db) userId0 (now env) Htrim)
    as [coll' ->].
  destruct (respond _ _) as [tasks1 r]. split; reflexivity.
Qed.

(** Rewrites the request of a resolved identity in the goal into the
    outcome of its handler. *)
Ltac to_handler Htrim Hschema :=
  cbn zeta;
  match goal with
  | |- context [handle ?db ?env (as_user ?u ?rt)] =>
      let Htasks := fresh "Htasks" in
      let Hreply := fresh "Hreply" in
      destruct (handle_resolved db env u rt Htrim Hschema) as [Htasks Hreply];
      rewrite ?Hreply, ?Htasks; clear Htasks Hreply; cbn [run_handler]
  end.

Lemma build_updateData_lookup title0 description0 status0 :
  build_updateData title0 description0 status0 !! "title"%string = title0 ∧
  build_updateData title0 description0 status0 !! "description"%string
    = description0 ∧
  build_updateData title0 description0 status0 !! "status"%string = status0.
Proof.
  unfold build_updateData.
  destruct title0, description0, status0; repeat split; by simplify_map_eq.
Qed.

(** [updateData] never names [userId]: the handler copies the three
    destructured properties and nothing else. *)
Lemma build_updateData_userId title0 description0 status0 :
  build_updateData title0 description0 status0 !! "userId"%string = None.
Proof.
  unfold build_updateData.
  destruct title0, description0, status0; by simplify_map_eq.
Qed.

Lemma build_updateData_empty title0 description0 status0 :
  size (build_updateData title0 description0 status0) = 0%nat ↔
  title0 = None ∧ description0 = None ∧ status0 = None.
Proof.
  rewrite map_size_empty_iff. split.
  - intros Hempty.
    destruct (build_updateData_lookup title0 description0 status0)
      as (Ht & Hd & Hs).
    rewrite Hempty in Ht, Hd, Hs. rewrite lookup_empty in Ht, Hd, Hs. done.
  - intros (-> & -> & ->). reflexivity.
Qed.

(** ** The error handler on the errors the routes meet *)

Lemma errorHandler_ValidationError msg :
  errorHandler (ValidationError msg)
  = {| code := 400; payload := SendError "ValidationError" (Some msg) |}.
Proof. reflexivity. Qed.

Lemma errorHandler_NotFoundError msg :
  errorHandler (NotFoundError msg)
  = {| code := 404; payload := SendError "NotFoundError" (Some msg) |}.
Proof. reflexivity. Qed.

Lemma errorHandler_CastError :
  errorHandler CastError
  = {| code := 400;
       payload := SendError "CastError" (Some "Invalid task ID format"%string) |}.
Proof. reflexivity. Qed.

Lemma errorHandler_MongooseValidationError :
  errorHandler MongooseValidationError
  = {| code := 400; payload := SendError "ValidationError" None |}.
Proof. reflexivity. Qed.

(** ** PATCH, case by case *)

Lemma update_task_outcome coll userId0 id body env :
  update_outcome coll userId0 id body env
    (respond coll (update_task coll userId0 id body env)).
Proof.
  unfold update_task.
  set (title0 := body !! "title"%string).
  set (description0 := body !! "description"%string).
  set (status0 := body !! "status"%string).
  destruct (build_updateData_lookup title0 description0 status0)
    as (Ht & Hd & Hs).
  assert (Hacc : patch_accepted body
                 = negb (bool_decide (title0 = None ∧ description0 = None
                                      ∧ status0 = None))
                   && update_validators
                        (build_updateData title0 description0 status0)).
  { unfold patch_accepted, update_validators.
    rewrite Ht, Hd, Hs, build_updateData_userId.
    fold title0 description0 status0. cbn [from_option].
    by rewrite andb_true_r, <- !andb_assoc. }
  destruct (truthy_opt status0 && _) eqn:Hstatus.
  { cbn [respond]. apply update_rejected; [ reflexivity | left ].
    rewrite Hacc. unfold update_validators. rewrite Hs.
    destruct status0 as [s|]; [ | discriminate ].
    assert (Hbad : valid_status s = false).
    { unfold truthy_opt in Hstatus. cbn [from_option] in Hstatus.
      unfold valid_status.
      by destruct (truthy s), (includes TaskStatus_values s). }
    cbn [from_option]. rewrite Hbad. by rewrite !andb_false_r. }
  destruct (decide (size _ = 0%nat)) as [Hempty|Hsome].
  { cbn [respond]. apply update_rejected; [ reflexivity | left ].
    apply build_updateData_empty in Hempty.
    rewrite Hacc, bool_decide_eq_true_2; done. }
  assert (Hgiven : bool_decide (title0 = None ∧ description0 = None
                                ∧ status0 = None) = false).
  { apply bool_decide_eq_false_2. by rewrite <- build_updateData_empty. }
  rewrite Hgiven in Hacc. cbn [negb andb] in Hacc.
  unfold Task_findOneAndUpdate.
  destruct (castObjectId id) as [o|] eqn:Hcast.
  2:{ cbn [bind respond]. apply update_rejected; [ reflexivity | by right ]. }
  destruct (update_validators _) eqn:Hvalid.
  2:{ cbn [bind respond]. apply update_rejected; [ reflexivity | by left ]. }
  destruct (lookup_owned coll o userId0) as [t|] eqn:Howned; cbn [bind respond snd fst].
  - replace (apply_set t _ (now env)) with (patched t body (now env)).
    + by eapply update_applied.
    + unfold apply_set, patched.
      by rewrite Ht, Hd, Hs, build_updateData_userId.
  - by eapply update_not_found.
Qed.

(** ** POST, GET one and DELETE, case by case *)

Lemma create_task_outcome coll userId0 body env :
  create_outcome coll userId0 body env
    (respond coll (create_task coll userId0 body env)).
Proof.
  unfold create_task.
  destruct (negb _ || negb _) eqn:Hmissing.
  { by apply create_rejected. }
  destruct (truthy _ && negb _) eqn:Hstatus.
  { by apply create_rejected. }
  unfold Task_create. cbn [title description status userId].
  destruct (valid_title _ && _ && valid_status _ && _) eqn:Hvalid.
  2:{ by apply create_rejected. }
  apply andb_prop in Hvalid as [Hvalid _].
  apply andb_prop in Hvalid as [_ Hvalid].
  destruct (coll !! new_id env) as [t|] eqn:Hfresh; cbn [bind respond fst snd].
  - apply create_duplicate; [ reflexivity | exact Hvalid | by rewrite Hfresh ].
  - by apply (create_done coll userId0 body env).
Qed.

Lemma get_task_outcome coll userId0 id :
  get_task coll userId0 id =
  match castObjectId id with
  | None =>
      Ok {| code := 400;
            payload := SendError "Validation Error"
                         (Some "Invalid task ID format"%string) |}
  | Some o =>
      match lookup_owned coll o userId0 with
      | Some t => Ok {| code := 200; payload := SendData (o, t) |}
      | None => Throw (NotFoundError "Task not found")
      end
  end.
Proof.
  unfold get_task, Task_findOne.
  destruct (castObjectId id) as [o|]; [ | reflexivity ].
  by destruct (lookup_owned coll o userId0).
Qed.

Lemma delete_task_outcome coll userId0 id :
  respond coll (delete_task coll userId0 id) =
  match castObjectId id with
  | None => (coll, errorHandler CastError)
  | Some o =>
      match lookup_owned coll o userId0 with
      | Some _ => (delete o coll, {| code := 204; payload := SendNothing |})
      | None => (coll, errorHandler (NotFoundError "Task not found"))
      end
  end.
Proof.
  unfold delete_task, Task_findOneAndDelete.
  destruct (castObjectId id) as [o|]; [ | reflexivity ].
  by destruct (lookup_owned coll o userId0).
Qed.

Lemma lookup_owned_Some coll o userId0 t :
  lookup_owned coll o userId0 = Some t ↔ coll !! o = Some t ∧ userId t = userId0.
Proof.
  unfold lookup_owned. split.
  - destruct (coll !! o) as [t0|]; [ | discriminate ].
    destruct (decide (userId t0 = userId0)); [ | discriminate ].
    by intros [= ->].
  - intros [-> Howner]. by rewrite decide_True.
Qed.

Lemma lookup_owned_other coll o userId0 t :
  coll !! o = Some t → userId t ≠ userId0 → lookup_owned coll o userId0 = None.
Proof.
  intros Ht Hother. unfold lookup_owned. rewrite Ht. by rewrite decide_False.
Qed.

Lemma lookup_owned_delete coll o userId0 :
  lookup_owned (delete o coll) o userId0 = None.
Proof. unfold lookup_owned. by rewrite lookup_delete_eq. Qed.

(** ** Facts about PATCH shared by the properties below *)

Lemma update_task_ext coll userId0 id (body body' : gmap string string) env :
  body' !! "title"%string = body !! "title"%string →
  body' !! "description"%string = body !! "description"%string →
  body' !! "status"%string = body !! "status"%string →
  update_task coll userId0 id body' env = update_task coll userId0 id body env.
Proof. intros Ht Hd Hs. unfold update_task. by rewrite Ht, Hd, Hs. Qed.

Lemma update_without_fields db env userId0 id (body : gmap string string) :
  truthy (trim userId0) = true →
  body !! "title"%string = None →
  body !! "description"%string = None →
  body !! "status"%string = None →
  let out := handle db env (as_user userId0 (PATCH_task id body)) in
  out.2 = {| code := 400;
             payload := SendError "ValidationError"
                          (Some "No valid fields provided for update"%string) |}
  ∧ tasks out.1 = tasks db.
Proof.
  intros Htrim Ht Hd Hs.
  to_handler Htrim (eq_refl (Ok ())).
  unfold update_task. rewrite Ht, Hd, Hs. by cbn.
Qed.

(** What an update may do to the collection: each stored task is either
    as it was or the [patched] version of what it was. *)
Lemma update_task_writes coll userId0 id (body : gmap string string) env o t' :
  (respond coll (update_task coll userId0 id body env)).1 !! o = Some t' →
  ∃ t, coll !! o = Some t ∧ (t' = t ∨ t' = patched t body (now env)).
Proof.
  destruct (update_task_outcome coll userId0 id body env)
    as [r _ _ | o0 _ _ _ | o0 t0 _ Howned _]; cbn [fst]; [ eauto .. | ].
  apply lookup_owned_Some in Howned as [Ht0 _].
  destruct (decide (o0 = o)) as [->|Hother].
  - rewrite lookup_insert_eq. intros [= <-]. eauto.
  - rewrite lookup_insert_ne by done. eauto.
Qed.


(** ** The pipeline, case by case *)

Lemma authMiddleware_replied coll x now0 coll' r :
  authMiddleware coll x now0 = (coll', Replied r) →
  coll' = coll ∧ (code r = 401 ∨ code r = 500).
Proof.
  unfold authMiddleware, auth_provision.
  destruct x as [u|]; [ destruct (truthy u) | ].
  - destruct (User_findOne coll u); [ discriminate | ].
    destruct (User_create coll u now0); [ discriminate | ].
    intros [= <- <-]. auto.
  - intros [= <- <-]. auto.
  - intros [= <- <-]. auto.
Qed.

(** Once bound, a token is bound again by every later run of the hook. *)
Lemma authMiddleware_bound coll x now0 coll' u :
  authMiddleware coll x now0 = (coll', Bound u) →
  x = Some u
  ∧ ∀ now1, authMiddleware coll' (Some u) now1 = (coll', Bound u).
Proof.
  unfold authMiddleware, auth_provision, User_findOne, User_create.
  destruct x as [u0|]; [ | discriminate ].
  destruct (truthy u0) eqn:Htruthy; [ | discriminate ].
  destruct (coll !! trim u0) as [c|] eqn:Hfound.
  - intros [= <- <-]. split; [ done | ]. intros now1.
    by rewrite Htruthy, Hfound.
  - destruct (truthy (trim u0)); [ | discriminate ].
    intros [= <- <-]. split; [ done | ]. intros now1.
    by rewrite Htruthy, lookup_insert_eq.
Qed.

Lemma handle_bound db env req users1 u :
  validate_schema (route req) = Ok () →
  authMiddleware (users db) (x_user_id req) (now env) = (users1, Bound u) →
  handle db env req =
  ({| tasks := (respond (tasks db) (run_handler (tasks db) env u (route req))).1;
      users := users1 |},
   (respond (tasks db) (run_handler (tasks db) env u (route req))).2).
Proof.
  intros Hschema Hauth. unfold handle. rewrite Hschema, Hauth.
  by destruct (respond _ _).
Qed.


(** ** Updates *)

(** C5: an update request that provides none of [title], [description]
    and [status] is answered 400 with a [ValidationError], and the task
    collection, hence the stored record of every existing task, is
    exactly as it was. *)
Theorem empty_update_rejected db env userId0 id (body : gmap string string) :
  truthy (trim userId0) = true →
  body !! "title"%string = None →
  body !! "description"%string = None →
  body !! "status"%string = None →
  let out := handle db env (as_user userId0 (PATCH_task id body)) in
  out.2 = {| code := 400;
             payload := SendError "ValidationError"
                          (Some "No valid fields provided for update"%string) |}
  ∧ tasks out.1 = tasks db
  ∧ ∀ o t, tasks db !! o = Some t → tasks out.1 !! o = Some t.
Proof.
  intros Htrim Ht Hd Hs. cbn zeta.
  destruct (update_without_fields db env userId0 id body Htrim Ht Hd Hs)
    as [Hreply Htasks].
  split; [ done | ]. split; [ done | ].
  intros o t. by rewrite Htasks.
Qed.

Lemma empty_update_rejected_witness :
  code (handle db_one env_later (as_user "u1" (PATCH_task id_one ∅))).2 = 400
  ∧ tasks (handle db_one env_later (as_user "u1" (PATCH_task id_one ∅))).1
      !! 1%N = Some task_A.
Proof.
  destruct (empty_update_rejected db_one env_later "u1" id_one ∅)
    as (Hreply & _ & Hkept); try reflexivity.
  split.
  - cbv zeta in Hreply. rewrite Hreply. reflexivity.
  - apply Hkept. reflexivity.
Defined.

(** C6: on a task the caller owns, an update request that provides only
    [title] leaves [description], [status], [userId] and [createdAt] of
    that task exactly as they were, and every other task untouched; when
    it succeeds the title is the trimmed new title and [updatedAt] is the
    time of the update, and when it is refused the record does not change
    at all. *)
Theorem title_only_update_frame db env userId0 id o t
    (body : gmap string string) v :
  truthy (trim userId0) = true →
  castObjectId id = Some o →
  tasks db !! o = Some t →
  userId t = userId0 →
  body !! "title"%string = Some v →
  body !! "description"%string = None →
  body !! "status"%string = None →
  let out := handle db env (as_user userId0 (PATCH_task id body)) in
  ∃ t',
    tasks out.1 !! o = Some t'
    ∧ description t' = description t
    ∧ status t' = status t
    ∧ userId t' = userId t
    ∧ createdAt t' = createdAt t
    ∧ (code out.2 = 200 → title t' = trim v ∧ updatedAt t' = now env)
    ∧ (code out.2 ≠ 200 → t' = t)
    ∧ ∀ o', o' ≠ o → tasks out.1 !! o' = tasks db !! o'.
Proof.
  intros Htrim Hcast Ht Howner Htitle Hdescription Hstatus.
  to_handler Htrim (eq_refl (Ok ())).
  assert (Howned : lookup_owned (tasks db) o userId0 = Some t)
    by by apply lookup_owned_Some.
  destruct (update_task_outcome (tasks db) userId0 id body env)
    as [r Hcode _ | o0 Hcast0 Hnone _ | o0 t0 Hcast0 Howned0 _];
    cbn [fst snd].
  - exists t. rewrite Hcode. repeat split; try done.
  - congruence.
  - assert (o0 = o) as -> by congruence.
    assert (t0 = t) as -> by congruence.
    exists (patched t body (now env)).
    rewrite lookup_insert_eq. unfold patched. cbn.
    rewrite Htitle, Hdescription, Hstatus. cbn.
    repeat split; try done.
    intros o' Hother. by rewrite lookup_insert_ne.
Qed.

Lemma title_only_update_frame_witness :
  ∃ t',
    tasks (handle db_one env_later
             (as_user "u1" (PATCH_task id_one {[ "title"%string := " New "%string ]}))).1
      !! 1%N = Some t'
    ∧ title t' = "New"%string
    ∧ description t' = "B"%string
    ∧ status t' = "To do"%string
    ∧ userId t' = "u1"%string
    ∧ createdAt t' = 100
    ∧ updatedAt t' = 200.
Proof.
  destruct (title_only_update_frame db_one env_later "u1" id_one 1%N task_A
              {[ "title"%string := " New "%string ]} " New ")
    as (t' & Hstored & Hd & Hs & Hu & Hc & Hdone & _); try reflexivity.
  exists t'. destruct Hdone as [Htitle Hupdated]; [ reflexivity | ].
  repeat split; assumption.
Defined.

(** C7: a create or an update request whose [status] is given and is not
    one of the four enum values is answered 400, and the task collection
    is exactly as it was: nothing is created, nothing is modified. *)
Theorem invalid_status_rejected db env userId0 rt
    (body : gmap string string) s :
  truthy (trim userId0) = true →
  rt = POST_tasks body ∨ (∃ id, rt = PATCH_task id body) →
  body !! "status"%string = Some s →
  s ∉ TaskStatus_values →
  let out := handle db env (as_user userId0 rt) in
  code out.2 = 400 ∧ tasks out.1 = tasks db.
Proof.
  intros Htrim Hroute Hstatus Hinvalid.
  assert (Hbad : valid_status s = false).
  { unfold valid_status, includes. rewrite bool_decide_eq_false_2 by done.
    apply andb_false_r. }
  assert (Hschema : validate_schema rt = Ok ())
    by (destruct Hroute as [-> | [id ->]]; reflexivity).
  to_handler Htrim Hschema.
  destruct Hroute as [-> | [id ->]]; cbn [run_handler].
  - destruct (create_task_outcome (tasks db) userId0 body env)
      as [r Hcode | r _ Hvalid _ | Hvalid _]; cbn [fst snd].
    + done.
    + cbn in Hvalid. rewrite Hstatus in Hvalid. cbn in Hvalid. congruence.
    + cbn in Hvalid. rewrite Hstatus in Hvalid. cbn in Hvalid. congruence.
  - assert (Hrejected : patch_accepted body = false).
    { unfold patch_accepted. rewrite Hstatus. cbn [from_option].
      rewrite Hbad. apply andb_false_r. }
    destruct (update_task_outcome (tasks db) userId0 id body env)
      as [r Hcode _ | o0 _ _ Hacc | o0 t0 _ _ Hacc]; cbn [fst snd].
    + done.
    + congruence.
    + congruence.
Qed.

Lemma invalid_status_rejected_witness :
  let post : gmap string string :=
    {[ "title"%string := "T"%string; "description"%string := "D"%string;
       "status"%string := ""%string ]} in
  let patch : gmap string string :=
    {[ "status"%string := "Invalid Status"%string ]} in
  (code (handle db_one env_later (as_user "u1" (POST_tasks post))).2 = 400
   ∧ tasks (handle db_one env_later (as_user "u1" (POST_tasks post))).1
     = tasks db_one)
  ∧ (code (handle db_one env_later
             (as_user "u1" (PATCH_task id_one patch))).2 = 400
     ∧ tasks (handle db_one env_later
                (as_user "u1" (PATCH_task id_one patch))).1
       = tasks db_one).
Proof.
  intros post patch. split.
  - apply (invalid_status_rejected db_one env_later "u1" (POST_tasks post)
             post ""%string);
      [ reflexivity | by left | reflexivity | ].
    compute_done.
  - apply (invalid_status_rejected db_one env_later "u1"
             (PATCH_task id_one patch) patch "Invalid Status"%string);
      [ reflexivity | right; by exists id_one | reflexivity | ].
    compute_done.
Defined.

(** C10: an update request whose body gives none of [title],
    [description] and [status] is rejected as an empty update with 400,
    whatever other fields it carries; the outcome of an update is the same
    for two bodies that agree on these three fields; and a stored task is
    only ever rewritten to its [patched] version, which takes nothing from
    the body but these three fields and keeps [userId] and [createdAt]. *)
Theorem unrecognized_fields_ignored db env userId0 id
    (body body' : gmap string string) :
  truthy (trim userId0) = true →
  body' !! "title"%string = body !! "title"%string →
  body' !! "description"%string = body !! "description"%string →
  body' !! "status"%string = body !! "status"%string →
  let out := handle db env (as_user userId0 (PATCH_task id body)) in
  (body !! "title"%string = None ∧ body !! "description"%string = None
   ∧ body !! "status"%string = None →
   out.2 = {| code := 400;
              payload := SendError "ValidationError"
                           (Some "No valid fields provided for update"%string) |}
   ∧ tasks out.1 = tasks db)
  ∧ handle db env (as_user userId0 (PATCH_task id body')) = out
  ∧ ∀ o t', tasks out.1 !! o = Some t' →
      ∃ t, tasks db !! o = Some t
           ∧ userId t' = userId t ∧ createdAt t' = createdAt t
           ∧ (t' = t ∨ t' = patched t body (now env)).
Proof.
  intros Htrim Ht Hd Hs. cbn zeta. split; [ | split ].
  - intros (Hnt & Hnd & Hns).
    by apply update_without_fields.
  - unfold handle, as_user. cbn [route x_user_id validate_schema run_handler].
    destruct (authMiddleware _ _ _) as [users1 [bound|r]]; [ | done ].
    by rewrite (update_task_ext _ _ _ body body').
  - intros o t'. to_handler Htrim (eq_refl (Ok ())). intros Hstored.
    apply update_task_writes in Hstored as (t & Hbefore & Hcases).
    exists t. split; [ done | ].
    destruct Hcases as [-> | ->]; repeat split; auto.
Qed.

Lemma unrecognized_fields_ignored_witness :
  let body : gmap string string :=
    {[ "title"%string := "X"%string; "userId"%string := "u2"%string;
       "priority"%string := "high"%string ]} in
  let body' : gmap string string := {[ "title"%string := "X"%string ]} in
  let written :=
    {| title := "X"; description := "B"; status := "To do"; userId := "u1";
       createdAt := 100; updatedAt := 200 |} in
  handle db_one env_later (as_user "u1" (PATCH_task id_one body'))
  = handle db_one env_later (as_user "u1" (PATCH_task id_one body))
  ∧ ∃ t, tasks db_one !! 1%N = Some t
         ∧ userId written = userId t ∧ createdAt written = createdAt t
         ∧ (written = t ∨ written = patched t body (now env_later)).
Proof.
  intros body body' written.
  destruct (unrecognized_fields_ignored db_one env_later "u1" id_one
              body body')
    as (_ & Hsame & Hkeeps); try reflexivity.
  split; [ exact Hsame | ].
  apply Hkeeps. reflexivity.
Defined.

(** ** Deleting *)

(** C9: when a delete request is answered 204, a get-one request by the
    same identity for the same identifier, made on the store the delete
    left, is answered 404. *)
Theorem deleted_task_not_found db env env' userId0 id :
  let out := handle db env (as_user userId0 (DELETE_task id)) in
  code out.2 = 204 →
  code (handle out.1 env' (as_user userId0 (GET_task id))).2 = 404.
Proof.
  cbn zeta.
  destruct (authMiddleware (users db) (Some userId0) (now env))
    as [users1 [u|r]] eqn:Hauth.
  - destruct (authMiddleware_bound _ _ _ _ _ Hauth) as [[= <-] Hagain].
    rewrite (handle_bound db env (as_user userId0 (DELETE_task id)) users1
               userId0 eq_refl Hauth).
    cbn [route as_user run_handler fst snd].
    rewrite delete_task_outcome.
    destruct (castObjectId id) as [o|] eqn:Hcast; [ | discriminate ].
    destruct (lookup_owned (tasks db) o userId0); [ | discriminate ].
    intros _. cbn [fst snd].
    rewrite (handle_bound {| tasks := delete o (tasks db); users := users1 |}
               env' (as_user userId0 (GET_task id)) users1
               userId0 eq_refl (Hagain (now env'))).
    cbn [route as_user run_handler tasks snd].
    by rewrite get_task_outcome, Hcast, lookup_owned_delete.
  - unfold handle. cbn [route as_user x_user_id validate_schema].
    rewrite Hauth. cbn [snd].
    apply authMiddleware_replied in Hauth as [_ [-> | ->]]; discriminate.
Qed.

Lemma deleted_task_not_found_witness :
  code (handle db_one env_later (as_user "u1" (DELETE_task id_one))).2 = 204
  ∧ code (handle (handle db_one env_later (as_user "u1" (DELETE_task id_one))).1
            env_later (as_user "u1" (GET_task id_one))).2 = 404.
Proof.
  split; [ reflexivity | ].
  apply (deleted_task_not_found db_one env_later env_later "u1" id_one).
  reflexivity.
Defined.

(** C3, the claim as stated fails: the identifier [invalid-id] matches no
    task of the caller, and the delete request is answered 400, not 404. *)
Lemma delete_malformed_id_is_400 :
  castObjectId "invalid-id" = None
  ∧ (handle db_one env_later (as_user "u1" (DELETE_task "invalid-id"))).2
    = {| code := 400;
         payload := SendError "CastError"
                      (Some "Invalid task ID format"%string) |}
  ∧ code (handle db_one env_later (as_user "u1" (DELETE_task "invalid-id"))).2
    ≠ 404.
Proof. repeat split; [ reflexivity .. | discriminate ]. Qed.

(** C3, amended: a delete request whose identifier is well formed and
    matches no task owned by the caller is answered 404; one whose
    identifier is malformed is answered 400; both leave the task
    collection as it was, and a delete request by a resolved identity has
    no other failure: otherwise the task is removed and the answer is
    204. *)
Theorem delete_outcomes db env userId0 id :
  truthy (trim userId0) = true →
  let out := handle db env (as_user userId0 (DELETE_task id)) in
  match castObjectId id with
  | None =>
      out.2 = {| code := 400;
                 payload := SendError "CastError"
                              (Some "Invalid task ID format"%string) |}
      ∧ tasks out.1 = tasks db
  | Some o =>
      match lookup_owned (tasks db) o userId0 with
      | None =>
          out.2 = {| code := 404;
                     payload := SendError "NotFoundError"
                                  (Some "Task not found"%string) |}
          ∧ tasks out.1 = tasks db
      | Some _ =>
          out.2 = {| code := 204; payload := SendNothing |}
          ∧ tasks out.1 = delete o (tasks db)
      end
  end.
Proof.
  intros Htrim.
  to_handler Htrim (eq_refl (Ok ())).
  rewrite delete_task_outcome.
  destruct (castObjectId id) as [o|]; [ | done ].
  by destruct (lookup_owned (tasks db) o userId0).
Qed.

Lemma delete_outcomes_witness :
  ((handle db_one env_later (as_user "u2" (DELETE_task id_one))).2
   = {| code := 404;
        payload := SendError "NotFoundError" (Some "Task not found"%string) |}
   ∧ tasks (handle db_one env_later (as_user "u2" (DELETE_task id_one))).1
     = tasks db_one).
Proof.
  exact (delete_outcomes db_one env_later "u2" id_one eq_refl).
Defined.

(** ** Ownership isolation *)

Lemma update_task_hidden coll userId0 id o (body : gmap string string) env :
  castObjectId id = Some o →
  lookup_owned coll o userId0 = None →
  (respond coll (update_task coll userId0 id body env)).1 = coll
  ∧ (respond coll (update_task coll userId0 id body env)).2
    = (respond (delete o coll)
         (update_task (delete o coll) userId0 id body env)).2.
Proof.
  intros Hcast Hnone. unfold update_task, Task_findOneAndUpdate.
  rewrite Hcast, Hnone, lookup_owned_delete.
  destruct (truthy_opt _ && _); [ done | ].
  destruct (decide _); [ done | ].
  by destruct (update_validators _).
Qed.

(** C1, the claim as stated fails: the task [000000000000000000000001]
    was created under [u1]; an update request for it by [u2] with an empty
    body is answered 400, not 404. *)
Lemma update_by_other_identity_is_400 :
  handle db_empty env_first (as_user "u1" (POST_tasks body_A))
  = (db_one, {| code := 201; payload := SendData (1%N, task_A) |})
  ∧ castObjectId id_one = Some 1%N
  ∧ (handle db_one env_later (as_user "u2" (PATCH_task id_one ∅))).2
    = {| code := 400;
         payload := SendError "ValidationError"
                      (Some "No valid fields provided for update"%string) |}
  ∧ code (handle db_one env_later (as_user "u2" (PATCH_task id_one ∅))).2
    ≠ 404.
Proof. repeat split; [ reflexivity .. | discriminate ]. Qed.

(** C1, amended: for a task owned by another identity, a get-one and a
    delete request by the resolved identity [B] are answered 404, and an
    update request is answered 404 when its body is one PATCH accepts and
    400 when it is not; so never 200 and never 403.  In each case the
    reply is the one given when the task is not in the store, and the
    task collection is left as it was. *)
Theorem foreign_task_is_not_found db env o t B id :
  truthy (trim B) = true →
  castObjectId id = Some o →
  tasks db !! o = Some t →
  userId t ≠ B →
  let hidden := {| tasks := delete o (tasks db); users := users db |} in
  let get := as_user B (GET_task id) in
  let del := as_user B (DELETE_task id) in
  let upd body := as_user B (PATCH_task id body) in
  code (handle db env get).2 = 404
  ∧ code (handle db env del).2 = 404
  ∧ (∀ body, code (handle db env (upd body)).2
             = if patch_accepted body then 404 else 400)
  ∧ ∀ req, req = get ∨ req = del ∨ (∃ body, req = upd body) →
      (handle db env req).2 = (handle hidden env req).2
      ∧ tasks (handle db env req).1 = tasks db.
Proof.
  intros Htrim Hcast Ht Hother. cbn zeta.
  pose proof (lookup_owned_other _ _ _ _ Ht Hother) as Hnone.
  assert (Hresolved : ∀ db0 rt,
    validate_schema rt = Ok () →
    tasks (handle db0 env (as_user B rt)).1
      = (respond (tasks db0) (run_handler (tasks db0) env B rt)).1
    ∧ (handle db0 env (as_user B rt)).2
      = (respond (tasks db0) (run_handler (tasks db0) env B rt)).2).
  { intros db0 rt Hschema. by apply handle_resolved. }
  assert (Hget : (respond (tasks db) (run_handler (tasks db) env B (GET_task id)))
                 = (tasks db, errorHandler (NotFoundError "Task not found"))).
  { cbn [run_handler]. by rewrite get_task_outcome, Hcast, Hnone. }
  assert (Hdel : (respond (tasks db) (run_handler (tasks db) env B (DELETE_task id)))
                 = (tasks db, errorHandler (NotFoundError "Task not found"))).
  { cbn [run_handler]. by rewrite delete_task_outcome, Hcast, Hnone. }
  split; [ | split; [ | split ] ].
  - destruct (Hresolved db (GET_task id) eq_refl) as [_ ->]. by rewrite Hget.
  - destruct (Hresolved db (DELETE_task id) eq_refl) as [_ ->]. by rewrite Hdel.
  - intros body.
    destruct (Hresolved db (PATCH_task id body) eq_refl) as [_ ->].
    cbn [run_handler].
    destruct (update_task_outcome (tasks db) B id body env)
      as [r Hcode [Hacc|Hmal] | o0 _ _ Hacc | o0 t0 Hcast0 Howned _];
      cbn [snd].
    + by rewrite Hacc.
    + congruence.
    + by rewrite Hacc.
    + congruence.
  - intros req [-> | [-> | [body ->]]].
    + destruct (Hresolved db (GET_task id) eq_refl) as [-> ->].
      destruct (Hresolved {| tasks := delete o (tasks db); users := users db |}
                  (GET_task id) eq_refl) as [_ ->].
      rewrite Hget. cbn [run_handler tasks].
      by rewrite get_task_outcome, Hcast, lookup_owned_delete.
    + destruct (Hresolved db (DELETE_task id) eq_refl) as [-> ->].
      destruct (Hresolved {| tasks := delete o (tasks db); users := users db |}
                  (DELETE_task id) eq_refl) as [_ ->].
      rewrite Hdel. cbn [run_handler tasks].
      by rewrite delete_task_outcome, Hcast, lookup_owned_delete.
    + destruct (Hresolved db (PATCH_task id body) eq_refl) as [-> ->].
      destruct (Hresolved {| tasks := delete o (tasks db); users := users db |}
                  (PATCH_task id body) eq_refl) as [_ ->].
      cbn [run_handler tasks].
      destruct (update_task_hidden (tasks db) B id o body env Hcast Hnone)
        as [-> ->].
      done.
Qed.

Lemma foreign_task_is_not_found_witness :
  code (handle db_one env_later (as_user "u2" (GET_task id_one))).2 = 404
  ∧ code (handle db_one env_later (as_user "u2" (DELETE_task id_one))).2 = 404
  ∧ code (handle db_one env_later
            (as_user "u2" (PATCH_task id_one
                             {[ "title"%string := "Hacked Title"%string ]}))).2
    = 404
  ∧ tasks (handle db_one env_later
             (as_user "u2" (PATCH_task id_one
                              {[ "title"%string := "Hacked Title"%string ]}))).1
    = tasks db_one.
Proof.
  destruct (foreign_task_is_not_found db_one env_later 1%N task_A "u2" id_one)
    as (Hget & Hdel & Hupd & Hsame);
    [ reflexivity | reflexivity | reflexivity | discriminate | ].
  split; [ exact Hget | ]. split; [ exact Hdel | ].
  split.
  - exact (Hupd {[ "title"%string := "Hacked Title"%string ]}).
  - apply Hsame. right. right. eauto.
Defined.

(** ** The identity resolver under a race *)

(** C2, the claim as stated fails: two requests carry the same unseen
    token and both look it up before either creates it.  The first
    creates the record and is bound; the create of the second is refused
    by the unique index, and the hook answers 500 instead of binding. *)
Lemma lost_race_is_500 :
  let seen1 := User_findOne ∅ "u1" in
  let seen2 := User_findOne ∅ "u1" in
  let first := auth_provision ∅ "u1" seen1 100 in
  let second := auth_provision first.1 "u1" seen2 101 in
  seen2 = None
  ∧ first = ({[ "u1"%string := 100 ]}, Bound "u1")
  ∧ User_create first.1 "u1" 101 = Throw MongoServerError
  ∧ second = (first.1, Replied failed_to_authenticate)
  ∧ code failed_to_authenticate = 500.
Proof. repeat split. Qed.

(** C2, amended: whenever the create fails, whatever the cause, the
    resolver answers 500 ("Failed to authenticate user"), leaves the
    identity collection as it is and does not bind the token.  The create
    fails with the store's uniqueness violation when the lookup found no
    record but the record exists by the time of the create, and with a
    validation error when the token is blank. *)
Theorem create_failure_is_500 (coll : gmap string Z) userId0 now0 :
  (∀ e, User_create coll userId0 now0 = Throw e →
        auth_provision coll userId0 None now0
        = (coll, Replied failed_to_authenticate))
  ∧ (∀ c, truthy (trim userId0) = true →
          coll !! trim userId0 = Some c →
          User_create coll userId0 now0 = Throw MongoServerError)
  ∧ (truthy (trim userId0) = false →
     User_create coll userId0 now0 = Throw MongooseValidationError)
  ∧ code failed_to_authenticate = 500.
Proof.
  split; [ | split; [ | split; [ | reflexivity ] ] ].
  - intros e Hthrown. unfold auth_provision. by rewrite Hthrown.
  - intros c Htrim Hexists. unfold User_create. by rewrite Htrim, Hexists.
  - intros Hblank. unfold User_create. by rewrite Hblank.
Qed.

Lemma create_failure_is_500_witness :
  (User_create {[ "u1"%string := 100 ]} "u1" 101 = Throw MongoServerError
   ∧ auth_provision {[ "u1"%string := 100 ]} "u1" None 101
     = ({[ "u1"%string := 100 ]}, Replied failed_to_authenticate))
  ∧ (User_create ∅ "  " 101 = Throw MongooseValidationError
     ∧ auth_provision ∅ "  " None 101 = (∅, Replied failed_to_authenticate)).
Proof.
  split.
  - destruct (create_failure_is_500 {[ "u1"%string := 100 ]} "u1" 101)
      as (Hreply & Hduplicate & _ & _).
    pose proof (Hduplicate 100 eq_refl eq_refl) as Hthrown.
    split; [ exact Hthrown | exact (Hreply _ Hthrown) ].
  - destruct (create_failure_is_500 ∅ "  " 101) as (Hreply & _ & Hblank & _).
    pose proof (Hblank eq_refl) as Hthrown.
    split; [ exact Hthrown | exact (Hreply _ Hthrown) ].
Defined.

(** ** Listing *)

Global Instance newer_total : Total newer.
Proof. intros a b. unfold newer. lia. Qed.

Global Instance newer_trans : Transitive newer.
Proof. intros a b c. unfold newer. lia. Qed.

Lemma matching_owned coll userId0 :
  matching coll userId0 None
  = filter (λ d : N * ITask, userId d.2 = userId0) (map_to_list coll).
Proof. apply list_filter_iff. intros d. unfold matches. tauto. Qed.

Lemma ceil_div_spec total0 P pages :
  0 < P →
  ceil_div total0 (Num P) = Num pages →
  (pages - 1) * P < total0 ≤ pages * P.
Proof.
  intros HP. unfold ceil_div.
  rewrite (proj2 (Z.eqb_neq P 0)) by lia.
  intros [= <-].
  pose proof (Z.div_mod (- total0) P ltac:(lia)) as Hdiv.
  pose proof (Z.mod_pos_bound (- total0) P HP) as Hmod.
  nia.
Qed.

(** C4: for a resolved identity, a list request without a status filter
    whose page and page size parse to [k >= 1] and [P >= 1] is answered
    200 with the caller's tasks sorted newest first by [createdAt], cut to
    the [P] records that start at offset [(k - 1) * P], so at most [P] of
    them; the metadata repeat [k] and [P], [total] is the number [N] of
    tasks the caller owns and [totalPages] is the least number of pages of
    size [P] that hold [N] records, that is ceil(N / P).  The page, the
    page size, the offset and the count are safe integers, so that the
    handler's arithmetic on numbers is the arithmetic on integers. *)
Theorem list_page db env userId0 (query : gmap string string) k P :
  truthy (trim userId0) = true →
  query !! "status"%string = None →
  parseInt (default "1"%string (query !! "page"%string)) = Num k →
  parseInt (default "50"%string (query !! "limit"%string)) = Num P →
  1 ≤ k ≤ MAX_SAFE_INTEGER →
  1 ≤ P ≤ MAX_SAFE_INTEGER →
  (k - 1) * P ≤ MAX_SAFE_INTEGER →
  let owned :=
    filter (λ d : N * ITask, userId d.2 = userId0) (map_to_list (tasks db)) in
  let N := Z.of_nat (length owned) in
  N ≤ MAX_SAFE_INTEGER →
  ∃ sorted data pages,
    (handle db env (as_user userId0 (GET_tasks query))).2
    = {| code := 200;
         payload := SendPage data {| page := Num k; limit := Num P;
                                     total := N; totalPages := Num pages |} |}
    ∧ sorted ≡ₚ owned
    ∧ StronglySorted newer sorted
    ∧ data = take (Z.to_nat P) (drop (Z.to_nat ((k - 1) * P)) sorted)
    ∧ (length data ≤ Z.to_nat P)%nat
    ∧ (pages - 1) * P < N ≤ pages * P.
Proof.
  intros Htrim Hstatus Hpage Hlimit Hk HP Hoffset. cbn zeta. intros Hcount.
  assert (Hschema : validate_schema (GET_tasks query) = Ok ()).
  { cbn. by rewrite Hstatus. }
  to_handler Htrim Hschema. unfold list_tasks.
  rewrite Hstatus, Hpage, Hlimit. cbn [truthy_opt from_option js_sub js_mul].
  unfold Task_find, Task_countDocuments.
  rewrite matching_owned.
  set (owned := filter _ (map_to_list (tasks db))).
  assert (Hskip : ((k - 1) * P <? 0) = false) by (apply Z.ltb_ge; nia).
  assert (Hzero : (P =? 0) = false) by (apply Z.eqb_neq; lia).
  rewrite Hskip, Hzero, (Z.abs_eq P) by lia.
  cbn [bind respond snd].
  destruct (ceil_div (Z.of_nat (length owned)) (Num P)) as [pages| |] eqn:Hceil;
    [ | unfold ceil_div in Hceil; rewrite Hzero in Hceil; discriminate .. ].
  exists (merge_sort newer owned), 
    (take (Z.to_nat P) (drop (Z.to_nat ((k - 1) * P)) (merge_sort newer owned))),
    pages.
  split; [ reflexivity | ].
  split; [ apply merge_sort_Permutation | ].
  split; [ apply StronglySorted_merge_sort; apply _ | ].
  split; [ reflexivity | ].
  split; [ rewrite length_take; lia | ].
  apply ceil_div_spec; [ lia | exact Hceil ].
Qed.

Lemma list_page_witness :
  let query : gmap string string :=
    {[ "page"%string := "2"%string; "limit"%string := "2"%string ]} in
  ∃ sorted data pages,
    (handle db_four env_later (as_user "u1" (GET_tasks query))).2
    = {| code := 200;
         payload := SendPage data {| page := Num 2; limit := Num 2;
                                     total := 3; totalPages := Num pages |} |}
    ∧ StronglySorted newer sorted
    ∧ data = take 2 (drop 2 sorted)
    ∧ (pages - 1) * 2 < 3 ≤ pages * 2.
Proof.
  intros query.
  destruct (list_page db_four env_later "u1" query 2 2)
    as (sorted & data & pages & Hreply & _ & Hsorted & Hdata & _ & Hpages);
    [ reflexivity | reflexivity | reflexivity | reflexivity
    | compute_done | compute_done | compute_done | compute_done | ].
  exists sorted, data, pages. repeat split; try assumption; apply Hpages.
Defined.

(** The same request, evaluated: the second page of size 2 of the three
    tasks of [u1] holds the oldest one, and there are two pages. *)
Example list_page_two_of_two :
  (handle db_four env_later
     (as_user "u1" (GET_tasks {[ "page"%string := "2"%string;
                                 "limit"%string := "2"%string ]}))).2
  = {| code := 200;
       payload := SendPage [(1%N, task_A)]
                    {| page := Num 2; limit := Num 2; total := 3;
                       totalPages := Num 2 |} |}.
Proof. vm_compute. reflexivity. Qed.

(** ** The owning identity *)

Lemma handle_tasks db env req :
  tasks (handle db env req).1 = tasks db
  ∨ ∃ u, x_user_id req = Some u
         ∧ handle db env req
           = ({| tasks := (respond (tasks db)
                             (run_handler (tasks db) env u (route req))).1;
                 users := users (handle db env req).1 |},
              (respond (tasks db)
                 (run_handler (tasks db) env u (route req))).2).
Proof.
  unfold handle.
  destruct (validate_schema (route req)) as [[]|e] eqn:Hschema; [ | by left ].
  destruct (authMiddleware _ _ _) as [users1 [u|r]] eqn:Hauth; [ | by left ].
  apply authMiddleware_bound in Hauth as [Hheader _].
  right. exists u. split; [ done | ].
  by destruct (respond _ _).
Qed.

Lemma run_handler_keeps_owner coll env u rt o owner :
  new_id env ≠ o →
  owned_or_gone o owner coll →
  owned_or_gone o owner (respond coll (run_handler coll env u rt)).1.
Proof.
  intros Hfresh Hinv. destruct rt as [query|id|body|id body|id];
    cbn [run_handler].
  - by destruct (list_tasks coll u query).
  - by destruct (get_task coll u id).
  - destruct (create_task_outcome coll u body env) as [r _ | r _ _ _ | _ _];
      cbn [fst]; [ done .. | ].
    intros t. rewrite lookup_insert_ne by done. apply Hinv.
  - intros t' Hstored.
    apply update_task_writes in Hstored as (t & Hbefore & [-> | ->]);
      [ | unfold patched; cbn [userId] ]; by apply Hinv.
  - rewrite delete_task_outcome.
    destruct (castObjectId id) as [o'|]; [ | done ].
    destruct (lookup_owned coll o' u); [ | done ].
    cbn [fst]. intros t Hstored.
    apply lookup_delete_Some in Hstored as [_ Hstored]. by apply Hinv.
Qed.

Lemma handle_keeps_owner db env req o owner :
  new_id env ≠ o →
  owned_or_gone o owner (tasks db) →
  owned_or_gone o owner (tasks (handle db env req).1).
Proof.
  intros Hfresh Hinv.
  destruct (handle_tasks db env req) as [-> | (u & _ & ->)]; [ done | ].
  cbn [fst tasks]. by apply run_handler_keeps_owner.
Qed.

Lemma run_keeps_owner reqs db o owner :
  Forall (λ er : Env * Request, new_id er.1 ≠ o) reqs →
  owned_or_gone o owner (tasks db) →
  owned_or_gone o owner (tasks (run db reqs)).
Proof.
  intros Hfresh. revert db.
  induction Hfresh as [|[env req] reqs Hhead _ IH]; intros db Hinv.
  - done.
  - cbn [run]. apply IH. by apply handle_keeps_owner.
Qed.

(** The store itself would move a task to another owner: a [$set] that
    names [userId] overwrites it.  That no request does so is the
    handler's doing, which builds [updateData] from [title], [description]
    and [status] only ([build_updateData_userId]). *)
Example set_userId_moves_the_task :
  Task_findOneAndUpdate (tasks db_one) id_one "u1"
    {[ "userId"%string := "u2"%string ]} env_later
  = Ok (<[1%N := {| title := "A"; description := "B"; status := "To do";
                    userId := "u2"; createdAt := 100; updatedAt := 200 |}]>
          (tasks db_one),
        Some (1%N, {| title := "A"; description := "B"; status := "To do";
                      userId := "u2"; createdAt := 100; updatedAt := 200 |})).
Proof. reflexivity. Qed.

(** C8: a task created by a request answered 201 has the resolved
    identity of that request as its [userId]; and after any run of later
    requests, by any caller, on any route and with any body (a [userId]
    field in an update body included), the task, if still stored, has the
    same [userId].  Later inserts get other identifiers than this task:
    the store never issues an identifier twice. *)
Theorem owner_is_fixed db env userId0 (body : gmap string string)
    (reqs : list (Env * Request)) :
  let out := handle db env (as_user userId0 (POST_tasks body)) in
  code out.2 = 201 →
  Forall (λ er : Env * Request, new_id er.1 ≠ new_id env) reqs →
  ∃ t,
    out.2 = {| code := 201; payload := SendData (new_id env, t) |}
    ∧ tasks db !! new_id env = None
    ∧ tasks out.1 !! new_id env = Some t
    ∧ userId t = userId0
    ∧ ∀ t', tasks (run out.1 reqs) !! new_id env = Some t' →
            userId t' = userId0.
Proof.
  cbn zeta. intros Hcode Hfresh.
  destruct (handle_tasks db env (as_user userId0 (POST_tasks body)))
    as [Hsame | (u & [= <-] & Hout)].
  - exfalso. revert Hcode Hsame. unfold handle.
    cbn [route as_user x_user_id validate_schema].
    destruct (authMiddleware _ _ _) as [users1 [u|r]] eqn:Hauth.
    + apply authMiddleware_bound in Hauth as [[= <-] _].
      cbn [run_handler].
      destruct (create_task_outcome (tasks db) userId0 body env)
        as [r Hr | r Hr _ _ | _ Hnone]; cbn [fst snd tasks code];
        [ congruence .. | ].
      intros _ Hsame.
      rewrite <- Hsame, lookup_insert_eq in Hnone. discriminate.
    + apply authMiddleware_replied in Hauth as [_ [Hr | Hr]];
        cbn [snd]; congruence.
  - revert Hcode. rewrite Hout. cbn [route as_user run_handler fst snd].
    destruct (create_task_outcome (tasks db) userId0 body env)
      as [r Hr | r Hr _ _ | _ Hnone]; cbn [fst snd tasks code];
      [ congruence .. | ].
    intros _. exists (created userId0 body (now env)).
    split; [ done | ]. split; [ done | ].
    split; [ by rewrite lookup_insert_eq | ]. split; [ done | ].
    apply (run_keeps_owner reqs _ (new_id env) userId0 Hfresh).
    cbn [tasks]. intros t. rewrite lookup_insert_eq. by intros [= <-].
Qed.

Lemma owner_is_fixed_witness :
  let later :=
    [ (env_later,
       as_user "u2" (PATCH_task id_one
                       {[ "title"%string := "Hacked"%string;
                          "userId"%string := "u2"%string ]}));
      (env_later,
       as_user "u1" (PATCH_task id_one
                       {[ "title"%string := "Renamed"%string;
                          "userId"%string := "u2"%string ]})) ] in
  ∃ t,
    tasks (handle db_empty env_first (as_user "u1" (POST_tasks body_A))).1
      !! 1%N = Some t
    ∧ userId t = "u1"%string
    ∧ ∀ t', tasks (run (handle db_empty env_first
                          (as_user "u1" (POST_tasks body_A))).1 later)
              !! 1%N = Some t' →
            userId t' = "u1"%string.
Proof.
  intros later.
  destruct (owner_is_fixed db_empty env_first "u1" body_A later)
    as (t & _ & _ & Hstored & Howner & Hlater).
  - reflexivity.
  - repeat constructor; discriminate.
  - exists t. repeat split; assumption.
Defined.

(** Such an update, evaluated: the request by [u1] that carries a
    [userId] field renames the task and leaves its owner. *)
Example userId_in_update_body_is_ignored :
  tasks (run db_one
           [ (env_later,
              as_user "u1" (PATCH_task id_one
                              {[ "title"%string := "Renamed"%string;
                                 "userId"%string := "u2"%string ]})) ])
    !! 1%N
  = Some {| title := "Renamed"; description := "B"; status := "To do";
            userId := "u1"; createdAt := 100; updatedAt := 200 |}.
Proof. vm_compute. reflexivity. Qed.

(** * Further properties of the request layer *)

(** ** The identity resolver *)

Lemma authMiddleware_outcome (coll : gmap string Z) x now0 :
  authMiddleware coll x now0 =
  match x with
  | Some u =>
      if truthy u then
        match coll !! trim u with
        | Some _ => (coll, Bound u)
        | None =>
            if truthy (trim u) then (<[trim u := now0]> coll, Bound u)
            else (coll, Replied failed_to_authenticate)
        end
      else (coll, Replied unauthorized)
  | None => (coll, Replied unauthorized)
  end.
Proof.
  unfold authMiddleware, auth_provision, User_findOne, User_create.
  destruct x as [u|]; [ | done ].
  destruct (truthy u); [ | done ].
  destruct (coll !! trim u) as [c|]; [ done | ].
  by destruct (truthy (trim u)).
Qed.

Lemma handle_schema_rejected db env req e :
  validate_schema (route req) = Throw e →
  handle db env req = (db, errorHandler SchemaValidationError).
Proof.
  intros Hschema. unfold handle. rewrite Hschema.
  assert (e = SchemaValidationError) as ->; [ | done ].
  destruct (route req) as [query| | | |]; try discriminate.
  unfold validate_schema in Hschema.
  destruct (query !! "status"%string) as [s|]; [ | discriminate ].
  destruct (includes TaskStatus_values s); [ discriminate | ].
  by injection Hschema.
Qed.

Lemma handle_replied db env req users1 r :
  validate_schema (route req) = Ok () →
  authMiddleware (users db) (x_user_id req) (now env) = (users1, Replied r) →
  handle db env req = (db, r).
Proof.
  intros Hschema Hauth. unfold handle. rewrite Hschema, Hauth.
  apply authMiddleware_replied in Hauth as [-> _]. by destruct db.
Qed.

(** X1: a request that passes the route's schema and carries no
    [x-user-id] header, or an empty one, is answered 401 [Unauthorized];
    neither collection changes, so no identity record is created. *)
Theorem missing_token_is_401 db env req :
  validate_schema (route req) = Ok () →
  x_user_id req = None ∨ x_user_id req = Some ""%string →
  handle db env req = (db, unauthorized).
Proof.
  intros Hschema Hheader.
  apply (handle_replied db env req (users db)); [ done | ].
  rewrite authMiddleware_outcome. by destruct Hheader as [-> | ->].
Qed.

Lemma missing_token_is_401_witness :
  handle db_one env_later {| x_user_id := None; route := POST_tasks body_A |}
  = (db_one, unauthorized)
  ∧ code unauthorized = 401.
Proof.
  split; [ | reflexivity ].
  apply missing_token_is_401; [ reflexivity | by left ].
Defined.

(** X2: what one request does to the identity collection: nothing, or,
    when its token is not registered yet and is not blank, the insertion
    of one record keyed by the trimmed token and dated by the clock. *)
Theorem identity_provisioning db env req :
  users (handle db env req).1 = users db
  ∨ ∃ u, x_user_id req = Some u
         ∧ truthy (trim u) = true
         ∧ users db !! trim u = None
         ∧ users (handle db env req).1 = <[trim u := now env]> (users db).
Proof.
  unfold handle.
  destruct (validate_schema (route req)) as [[]|e]; [ | by left ].
  rewrite authMiddleware_outcome.
  destruct (x_user_id req) as [u|]; [ | by left ].
  destruct (truthy u); [ | by left ].
  destruct (users db !! trim u) as [c|] eqn:Hfound.
  - left. by destruct (respond _ _).
  - destruct (truthy (trim u)) eqn:Htrim; [ | by left ].
    right. exists u. by destruct (respond _ _).
Qed.

Lemma run_keeps_identities reqs db (k : string) c :
  users db !! k = Some c → users (run db reqs) !! k = Some c.
Proof.
  revert db. induction reqs as [|[env req] reqs IH]; intros db Hk; [ done | ].
  cbn [run]. apply IH.
  destruct (identity_provisioning db env req)
    as [-> | (u & _ & _ & Hnone & ->)]; [ done | ].
  rewrite lookup_insert_ne; [ done | ]. congruence.
Qed.

(** X3: once a request with a token that is not blank has passed the
    route's schema, the identity collection holds a record for the trimmed
    token, dated by the first such request, and no run of later requests
    removes or redates it. *)
Theorem identity_registered_for_good db env u rt reqs :
  validate_schema rt = Ok () →
  truthy (trim u) = true →
  ∃ c, users (run (handle db env (as_user u rt)).1 reqs) !! trim u = Some c
       ∧ (users db !! trim u = Some c
          ∨ users db !! trim u = None ∧ c = now env).
Proof.
  intros Hschema Htrim.
  assert (∃ c, users (handle db env (as_user u rt)).1 !! trim u = Some c
               ∧ (users db !! trim u = Some c
                  ∨ users db !! trim u = None ∧ c = now env))
    as (c & Hnow & Hcases).
  { unfold handle, as_user. cbn [route x_user_id]. rewrite Hschema.
    rewrite authMiddleware_outcome, (truthy_trim _ Htrim), Htrim.
    destruct (users db !! trim u) as [c|] eqn:Hfound;
      destruct (respond _ _); cbn [fst users].
    - eauto.
    - exists (now env). rewrite lookup_insert_eq. eauto. }
  exists c. split; [ | done ]. by apply run_keeps_identities.
Qed.

Lemma identity_registered_for_good_witness :
  ∃ c, users (run (handle db_one env_later (as_user " u2 " (GET_tasks ∅))).1
                [ (env_first, as_user "u2" (DELETE_task id_one));
                  (env_first, as_user "u3" (GET_task id_one)) ])
         !! "u2"%string = Some c
       ∧ c = 200.
Proof.
  destruct (identity_registered_for_good db_one env_later " u2 " (GET_tasks ∅)
              [ (env_first, as_user "u2" (DELETE_task id_one));
                (env_first, as_user "u3" (GET_task id_one)) ])
    as (c & Hstored & [Hold | [_ Hnew]]); [ reflexivity | reflexivity | | ].
  - discriminate Hold.
  - exists c. by split.
Defined.

Lemma falsy_empty (s : string) : truthy s = false → s = ""%string.
Proof. by destruct s. Qed.

(** X4: a token that is not empty but consists of white space only is
    answered 500 ("Failed to authenticate user"): the record to create
    would have an empty [userId], which the schema refuses, and the hook
    turns the failure into its 500 reply.  Nothing is stored. *)
Theorem blank_token_is_500 db env req u :
  validate_schema (route req) = Ok () →
  x_user_id req = Some u →
  truthy u = true →
  trim u = ""%string →
  users db !! ""%string = None →
  handle db env req = (db, failed_to_authenticate).
Proof.
  intros Hschema Hheader Hu Hblank Hnone.
  apply (handle_replied db env req (users db)); [ done | ].
  by rewrite authMiddleware_outcome, Hheader, Hu, Hblank, Hnone.
Qed.

Lemma blank_token_is_500_witness :
  handle db_one env_later (as_user "  " (GET_task id_one))
  = (db_one, failed_to_authenticate)
  ∧ code failed_to_authenticate = 500.
Proof.
  split; [ | reflexivity ].
  by apply (blank_token_is_500 db_one env_later _ "  ").
Defined.

(** X5: the identity records have no effect on the task operations: two
    stores with the same tasks (and no identity record with an empty
    token, which the schema never admits) give the same reply to a request
    and are left with the same tasks. *)
Theorem identities_do_not_matter db db' env req :
  tasks db = tasks db' →
  users db !! ""%string = None →
  users db' !! ""%string = None →
  (handle db env req).2 = (handle db' env req).2
  ∧ tasks (handle db env req).1 = tasks (handle db' env req).1.
Proof.
  intros Htasks Hnone Hnone'. unfold handle.
  destruct (validate_schema (route req)) as [[]|e]; [ | done ].
  rewrite !authMiddleware_outcome.
  destruct (x_user_id req) as [u|]; [ | done ].
  destruct (truthy u); [ | done ].
  destruct (truthy (trim u)) eqn:Htrim.
  - rewrite <- Htasks.
    destruct (users db !! trim u), (users db' !! trim u);
      by destruct (respond _ _).
  - apply falsy_empty in Htrim. by rewrite Htrim, Hnone, Hnone'.
Qed.

Lemma identities_do_not_matter_witness :
  (handle db_one env_later (as_user "u9" (GET_task id_one))).2
  = (handle {| tasks := tasks db_one; users := ∅ |} env_later
       (as_user "u9" (GET_task id_one))).2
  ∧ tasks (handle db_one env_later (as_user "u9" (GET_task id_one))).1
    = tasks (handle {| tasks := tasks db_one; users := ∅ |} env_later
               (as_user "u9" (GET_task id_one))).1.
Proof.
  by apply (identities_do_not_matter db_one
              {| tasks := tasks db_one; users := ∅ |}).
Defined.

(** ** What a request may write *)

Lemma errorHandler_MongoServerError :
  errorHandler MongoServerError
  = {| code := 500;
       payload := SendError "MongoServerError"
                    (Some "An unexpected error occurred"%string) |}.
Proof. reflexivity. Qed.

Lemma list_tasks_cases coll u (query : gmap string string) :
  (∃ data pg, list_tasks coll u query
              = Ok {| code := 200; payload := SendPage data pg |})
  ∨ list_tasks coll u query = Throw MongoServerError.
Proof.
  unfold list_tasks, Task_find.
  destruct (js_mul _ _) as [s| |]; [ | by right .. ].
  destruct (parseInt (default "50"%string _)) as [l| |]; [ | by right .. ].
  destruct (s <? 0); [ by right | ]. left. cbn [bind]. eauto.
Qed.

(** The four ways a route handler can leave the collection: as it was,
    with one inserted task, with one task replaced by its [patched]
    version, or with one task removed. *)
Lemma run_handler_writes coll env u rt :
  let out := respond coll (run_handler coll env u rt) in
  out.1 = coll
  ∨ (∃ body,
        rt = POST_tasks body ∧ coll !! new_id env = None
        ∧ out = (<[new_id env := created u body (now env)]> coll,
                 {| code := 201;
                    payload := SendData (new_id env,
                                         created u body (now env)) |}))
  ∨ (∃ id body o t,
        rt = PATCH_task id body ∧ castObjectId id = Some o
        ∧ lookup_owned coll o u = Some t ∧ patch_accepted body = true
        ∧ out = (<[o := patched t body (now env)]> coll,
                 {| code := 200;
                    payload := SendData (o, patched t body (now env)) |}))
  ∨ (∃ id o t,
        rt = DELETE_task id ∧ castObjectId id = Some o
        ∧ lookup_owned coll o u = Some t
        ∧ out = (delete o coll, {| code := 204; payload := SendNothing |})).
Proof.
  cbn zeta. destruct rt as [query|id|body|id body|id]; cbn [run_handler].
  - left. by destruct (list_tasks coll u query).
  - left. by destruct (get_task coll u id).
  - destruct (create_task_outcome coll u body env) as [r _ | r _ _ _ | _ Hnone];
      [ by left .. | ].
    right. left. eauto.
  - destruct (update_task_outcome coll u id body env)
      as [r _ _ | o _ _ _ | o t Hcast Howned Hacc]; [ by left .. | ].
    right. right. left. exists id, body, o, t. eauto.
  - rewrite delete_task_outcome.
    destruct (castObjectId id) as [o|] eqn:Hcast; [ | by left ].
    destruct (lookup_owned coll o u) as [t|] eqn:Howned; [ | by left ].
    right. right. right. exists id, o, t. eauto.
Qed.

Lemma run_handler_codes coll env u rt :
  code (respond coll (run_handler coll env u rt)).2 ∈ reply_codes.
Proof.
  destruct rt as [query|id|body|id body|id]; cbn [run_handler].
  - destruct (list_tasks_cases coll u query) as [(data & pg & ->) | ->];
      compute_done.
  - rewrite get_task_outcome.
    destruct (castObjectId id) as [o|]; [ | compute_done ].
    destruct (lookup_owned coll o u); compute_done.
  - destruct (create_task_outcome coll u body env) as [r Hr | r Hr _ _ | _ _];
      cbn [snd code]; rewrite ?Hr; compute_done.
  - destruct (update_task_outcome coll u id body env)
      as [r Hr _ | o _ _ _ | o t _ _ _]; cbn [snd code]; rewrite ?Hr;
      compute_done.
  - rewrite delete_task_outcome.
    destruct (castObjectId id) as [o|]; [ | compute_done ].
    destruct (lookup_owned coll o u); compute_done.
Qed.

(** X6: whatever the store, the caller and the request, the reply's
    status is one of 200, 201, 204, 400, 401, 404 and 500; in particular
    no request is ever answered 403. *)
Theorem reply_code_is_known db env req :
  code (handle db env req).2 ∈ reply_codes
  ∧ code (handle db env req).2 ≠ 403.
Proof.
  assert (Hknown : code (handle db env req).2 ∈ reply_codes).
  { destruct (validate_schema (route req)) as [[]|e] eqn:Hschema.
    - destruct (authMiddleware (users db) (x_user_id req) (now env))
        as [users1 [u|r]] eqn:Hauth.
      + rewrite (handle_bound db env req users1 u Hschema Hauth).
        apply run_handler_codes.
      + rewrite (handle_replied db env req users1 r Hschema Hauth).
        apply authMiddleware_replied in Hauth as [_ [Hr | Hr]];
          cbn [snd]; rewrite Hr; compute_done.
    - rewrite (handle_schema_rejected db env req e Hschema). compute_done. }
  split; [ done | ].
  intros Hforbidden. rewrite Hforbidden in Hknown.
  by apply (bool_decide_eq_false_1 (403 ∈ reply_codes)) in Hknown.
Qed.

Lemma handle_outcome db env req :
  (tasks (handle db env req).1 = tasks db
   ∧ code (handle db env req).2 ∈ [400; 401; 500])
  ∨ ∃ u, x_user_id req = Some u ∧ truthy u = true
         ∧ tasks (handle db env req).1
           = (respond (tasks db) (run_handler (tasks db) env u (route req))).1
         ∧ (handle db env req).2
           = (respond (tasks db) (run_handler (tasks db) env u (route req))).2.
Proof.
  destruct (validate_schema (route req)) as [[]|e] eqn:Hschema.
  - destruct (authMiddleware (users db) (x_user_id req) (now env))
      as [users1 [u|r]] eqn:Hauth.
    + right. exists u.
      rewrite (handle_bound db env req users1 u Hschema Hauth).
      pose proof Hauth as Hbound.
      apply authMiddleware_bound in Hbound as [Hheader _].
      rewrite authMiddleware_outcome, Hheader in Hauth.
      destruct (truthy u); [ done | discriminate ].
    + left. rewrite (handle_replied db env req users1 r Hschema Hauth).
      split; [ done | ].
      apply authMiddleware_replied in Hauth as [_ [Hr | Hr]];
        cbn [snd]; rewrite Hr; compute_done.
  - left. rewrite (handle_schema_rejected db env req e Hschema).
    split; [ done | compute_done ].
Qed.

(** X7: no request writes to a task of another identity: a stored task
    whose [userId] is not the token the request carries is stored
    unchanged afterwards, whatever the route, the identifier and the
    body. *)
Theorem foreign_tasks_untouched db env req o t :
  tasks db !! o = Some t →
  x_user_id req ≠ Some (userId t) →
  tasks (handle db env req).1 !! o = Some t.
Proof.
  intros Ht Hother.
  destruct (handle_outcome db env req)
    as [[-> _] | (u & Hheader & _ & -> & _)];
    [ done | ].
  assert (Hforeign : lookup_owned (tasks db) o u = None).
  { apply (lookup_owned_other _ _ _ t); congruence. }
  destruct (run_handler_writes (tasks db) env u (route req))
    as [-> | [(body & _ & Hnone & ->) | [(id & body & o' & t' & _ & _ & Howned & _ & ->)
        | (id & o' & t' & _ & _ & Howned & ->)]]]; cbn [fst].
  - done.
  - rewrite lookup_insert_ne; [ done | ]. congruence.
  - rewrite lookup_insert_ne; [ done | ]. congruence.
  - rewrite lookup_delete_ne; [ done | ]. congruence.
Qed.

Lemma foreign_tasks_untouched_witness :
  tasks (handle db_one env_first
           (as_user "u2" (POST_tasks body_A))).1 !! 1%N = Some task_A
  ∧ tasks (handle db_one env_later
             (as_user "u2" (DELETE_task id_one))).1 !! 1%N = Some task_A.
Proof.
  split; by apply foreign_tasks_untouched.
Defined.

(** X8: the task collection grows only by a create answered 201, and
    then by the one identifier the store issued for it; it shrinks only
    by a delete answered 204. *)
Theorem only_create_adds_only_delete_removes db env req o :
  (tasks db !! o = None → is_Some (tasks (handle db env req).1 !! o) →
   code (handle db env req).2 = 201 ∧ o = new_id env
   ∧ ∃ body, route req = POST_tasks body)
  ∧ (is_Some (tasks db !! o) → tasks (handle db env req).1 !! o = None →
     code (handle db env req).2 = 204
     ∧ ∃ id, route req = DELETE_task id ∧ castObjectId id = Some o).
Proof.
  destruct (handle_outcome db env req) as [[-> _] | (u & _ & _ & -> & ->)].
  { split; [ intros -> [? [=]] | intros [? ->] [=] ]. }
  destruct (run_handler_writes (tasks db) env u (route req))
    as [-> | [(body & Hroute & Hnone & ->)
        | [(id & body & o' & t' & _ & _ & Howned & _ & ->)
        | (id & o' & t' & Hroute & Hcast & Howned & ->)]]]; cbn [fst snd code].
  - split; [ intros -> [? [=]] | intros [? ->] [=] ].
  - split.
    + intros Hbefore Hafter. destruct (decide (o = new_id env)) as [->|Hne].
      * eauto.
      * rewrite lookup_insert_ne, Hbefore in Hafter by done.
        by destruct Hafter.
    + intros Hbefore Hafter. destruct (decide (o = new_id env)) as [->|Hne].
      * by rewrite lookup_insert_eq in Hafter.
      * rewrite lookup_insert_ne in Hafter by done.
        rewrite Hafter in Hbefore. by destruct Hbefore.
  - apply lookup_owned_Some in Howned as [Hstored _]. split.
    + intros Hbefore Hafter. destruct (decide (o = o')) as [->|Hne].
      * congruence.
      * rewrite lookup_insert_ne, Hbefore in Hafter by done.
        by destruct Hafter.
    + intros Hbefore Hafter. destruct (decide (o = o')) as [->|Hne].
      * by rewrite lookup_insert_eq in Hafter.
      * rewrite lookup_insert_ne in Hafter by done.
        rewrite Hafter in Hbefore. by destruct Hbefore.
  - split.
    + intros Hbefore Hafter.
      destruct Hafter as [t Hafter].
      apply lookup_delete_Some in Hafter as [_ Hafter]. congruence.
    + intros Hbefore Hafter. destruct (decide (o = o')) as [->|Hne].
      * eauto.
      * rewrite lookup_delete_ne in Hafter by done.
        rewrite Hafter in Hbefore. by destruct Hbefore.
Qed.

(** X9: a request changes at most one task document; a list or a get-one
    request changes none, whatever it is answered. *)
Theorem at_most_one_task_written db env req :
  (∃ o, ∀ o', o' ≠ o →
        tasks (handle db env req).1 !! o' = tasks db !! o')
  ∧ ((∃ query, route req = GET_tasks query) ∨ (∃ id, route req = GET_task id) →
     tasks (handle db env req).1 = tasks db).
Proof.
  destruct (handle_outcome db env req) as [[-> _] | (u & _ & _ & -> & _)].
  { split; [ by exists 0%N | done ]. }
  destruct (run_handler_writes (tasks db) env u (route req))
    as [-> | [(body & Hroute & _ & ->)
        | [(id & body & o & t & Hroute & _ & _ & _ & ->)
        | (id & o & t & Hroute & _ & _ & ->)]]]; cbn [fst].
  - split; [ by exists 0%N | done ].
  - split.
    + exists (new_id env). intros o' Hne. by rewrite lookup_insert_ne.
    + rewrite Hroute. by intros [[? [=]] | [? [=]]].
  - split.
    + exists o. intros o' Hne. by rewrite lookup_insert_ne.
    + rewrite Hroute. by intros [[? [=]] | [? [=]]].
  - split.
    + exists o. intros o' Hne. by rewrite lookup_delete_ne.
    + rewrite Hroute. by intros [[? [=]] | [? [=]]].
Qed.

(** ** Creating and reading back *)

Lemma create_task_cases coll u (body : gmap string string) env :
  truthy u = true →
  (create_accepted body = false →
   (respond coll (create_task coll u body env)).1 = coll
   ∧ code (respond coll (create_task coll u body env)).2 = 400)
  ∧ (create_accepted body = true →
     respond coll (create_task coll u body env)
     = match coll !! new_id env with
       | Some _ => (coll, errorHandler MongoServerError)
       | None =>
           (<[new_id env := created u body (now env)]> coll,
            {| code := 201;
               payload := SendData (new_id env, created u body (now env)) |})
       end).
Proof.
  intros Hu. unfold create_task, create_accepted, Task_create.
  cbn [title description status userId]. unfold valid_userId, valid_status.
  rewrite Hu.
  destruct (truthy_opt (body !! "title"%string)),
    (truthy_opt (body !! "description"%string));
    cbn [negb orb andb]; try (split; [ by intros _ | discriminate ]).
  destruct (truthy (default _ (body !! "status"%string))),
    (includes TaskStatus_values (default _ (body !! "status"%string)));
    cbn [negb andb]; rewrite ?andb_false_r; cbn [andb];
    try (split; [ by intros _ | discriminate ]).
  rewrite !andb_true_r.
  destruct (valid_title _ && valid_description _) eqn:Hvalid.
  - split; [ discriminate | intros _ ].
    by destruct (coll !! new_id env).
  - split; [ by intros _ | discriminate ].
Qed.

(** X11: for a caller whose token is resolved, a create request is
    answered 201 exactly when its body is accepted ([title] and
    [description] given, not empty once trimmed and within 200 and 2000
    characters, [status] absent or one of the enum values) and the
    identifier issued for it is free.  It then stores, under that
    identifier, the document with the trimmed fields, the given or default
    status "To do", the caller as owner and both timestamps at the current
    time, and replies with it; a refused body is answered 400 and stores
    nothing. *)
Theorem create_outcomes db env u (body : gmap string string) :
  truthy (trim u) = true →
  let out := handle db env (as_user u (POST_tasks body)) in
  (code out.2 = 201 ↔
   create_accepted body = true ∧ tasks db !! new_id env = None)
  ∧ (code out.2 = 201 →
     tasks out.1 = <[new_id env := created u body (now env)]> (tasks db)
     ∧ out.2 = {| code := 201;
                  payload := SendData (new_id env,
                                       created u body (now env)) |})
  ∧ (create_accepted body = false →
     code out.2 = 400 ∧ tasks out.1 = tasks db).
Proof.
  intros Htrim. to_handler Htrim (eq_refl (Ok ())).
  destruct (create_task_cases (tasks db) u body env (truthy_trim _ Htrim))
    as [Hrejected Haccepted].
  destruct (create_accepted body).
  - rewrite (Haccepted eq_refl).
    destruct (tasks db !! new_id env) as [t|]; cbn [fst snd code].
    + rewrite errorHandler_MongoServerError. cbn [code].
      split; [ split; [ discriminate | by intros [_ [=]] ] | ].
      split; [ discriminate | discriminate ].
    + split; [ done | ]. split; [ done | discriminate ].
  - destruct (Hrejected eq_refl) as [-> ->].
    split; [ split; [ discriminate | by intros [[=] _] ] | ].
    split; [ discriminate | done ].
Qed.

Lemma create_outcomes_witness :
  let body : gmap string string :=
    {[ "title"%string := "  Buy milk "%string;
       "description"%string := "2 l"%string ]} in
  tasks (handle db_one env_later (as_user "u2" (POST_tasks body))).1
  = <[2%N := {| title := "Buy milk"; description := "2 l";
                status := "To do"; userId := "u2";
                createdAt := 200; updatedAt := 200 |}]> (tasks db_one)
  ∧ code (handle db_one env_later
            (as_user "u2" (POST_tasks {[ "title"%string := "   "%string;
                                         "description"%string := "d"%string ]}))).2
    = 400.
Proof.
  intros body. split.
  - destruct (create_outcomes db_one env_later "u2" body eq_refl)
      as (_ & Hdone & _).
    apply Hdone. reflexivity.
  - destruct (create_outcomes db_one env_later "u2"
                {[ "title"%string := "   "%string;
                   "description"%string := "d"%string ]} eq_refl)
      as (_ & _ & Hrefused).
    apply Hrefused. reflexivity.
Defined.

(** X10: for a caller whose token is resolved, a get-one request never
    changes the tasks and has exactly three outcomes: a malformed
    identifier is answered 400 by the route itself ("Validation Error"),
    a task stored under the identifier and owned by the caller is returned
    as it is stored with 200, and anything else is answered 404. *)
Theorem get_outcomes db env u id :
  truthy (trim u) = true →
  let out := handle db env (as_user u (GET_task id)) in
  tasks out.1 = tasks db
  ∧ match castObjectId id with
    | None =>
        out.2 = {| code := 400;
                   payload := SendError "Validation Error"
                                (Some "Invalid task ID format"%string) |}
    | Some o =>
        match tasks db !! o with
        | Some t =>
            if decide (userId t = u)
            then out.2 = {| code := 200; payload := SendData (o, t) |}
            else out.2 = {| code := 404;
                            payload := SendError "NotFoundError"
                                         (Some "Task not found"%string) |}
        | None =>
            out.2 = {| code := 404;
                       payload := SendError "NotFoundError"
                                    (Some "Task not found"%string) |}
        end
    end.
Proof.
  intros Htrim. to_handler Htrim (eq_refl (Ok ())).
  rewrite get_task_outcome. unfold lookup_owned.
  destruct (castObjectId id) as [o|]; [ | done ].
  destruct (tasks db !! o) as [t|]; [ | done ].
  by destruct (decide (userId t = u)).
Qed.

Lemma get_outcomes_witness :
  (handle db_one env_later (as_user "u1" (GET_task id_one))).2
  = {| code := 200; payload := SendData (1%N, task_A) |}
  ∧ (handle db_one env_later (as_user "u1" (GET_task "invalid-id"))).2
    = {| code := 400;
         payload := SendError "Validation Error"
                      (Some "Invalid task ID format"%string) |}.
Proof.
  split.
  - exact (proj2 (get_outcomes db_one env_later "u1" id_one eq_refl)).
  - exact (proj2 (get_outcomes db_one env_later "u1" "invalid-id" eq_refl)).
Defined.

(** X12: create then read: when a create request is answered 201 with a
    document, a get-one request by the same caller for the identifier of
    that document is answered 200 with the same document. *)
Theorem create_then_get db env env' u (body : gmap string string) id d :
  castObjectId id = Some d.1 →
  (handle db env (as_user u (POST_tasks body))).2
  = {| code := 201; payload := SendData d |} →
  (handle (handle db env (as_user u (POST_tasks body))).1 env'
     (as_user u (GET_task id))).2
  = {| code := 200; payload := SendData d |}.
Proof.
  intros Hcast.
  destruct (authMiddleware (users db) (Some u) (now env))
    as [users1 [u'|r]] eqn:Hauth.
  - destruct (authMiddleware_bound _ _ _ _ _ Hauth) as [[= <-] Hagain].
    rewrite (handle_bound db env (as_user u (POST_tasks body)) users1 u
               eq_refl Hauth).
    cbn [route as_user run_handler fst snd].
    destruct (create_task_outcome (tasks db) u body env)
      as [r Hr | r Hr _ _ | _ Hnone]; cbn [fst snd].
    + intros ->. discriminate Hr.
    + intros ->. discriminate Hr.
    + intros [= <-]. cbn [fst] in Hcast.
      rewrite (handle_bound
                 {| tasks := <[new_id env := created u body (now env)]> (tasks db);
                    users := users1 |}
                 env' (as_user u (GET_task id)) users1 u
                 eq_refl (Hagain (now env'))).
      cbn [route as_user run_handler tasks snd].
      rewrite get_task_outcome, Hcast.
      unfold lookup_owned. rewrite lookup_insert_eq.
      by rewrite decide_True.
  - rewrite (handle_replied db env (as_user u (POST_tasks body)) users1 r
               eq_refl Hauth).
    apply authMiddleware_replied in Hauth as [_ [Hr | Hr]];
      cbn [snd]; intros ->; discriminate Hr.
Qed.

Lemma create_then_get_witness :
  (handle (handle db_empty env_first (as_user "u1" (POST_tasks body_A))).1
     env_later (as_user "u1" (GET_task id_one))).2
  = {| code := 200; payload := SendData (1%N, task_A) |}.
Proof.
  by apply (create_then_get db_empty env_first env_later "u1" body_A id_one
              (1%N, task_A)).
Defined.

(** ** Stored tasks are valid *)

Ltac split_andb :=
  repeat match goal with
         | H : _ && _ = true |- _ => apply andb_prop in H as [? ?]
         end;
  repeat (apply andb_true_intro; split); try assumption.

Lemma created_valid u (body : gmap string string) now0 :
  truthy u = true →
  create_accepted body = true →
  schema_valid (created u body now0) = true.
Proof.
  unfold create_accepted, schema_valid, created, valid_userId.
  cbn [title description status userId]. intros Hu Haccepted.
  unfold valid_title, valid_description, valid_status in *. split_andb.
Qed.

Lemma patched_valid t (body : gmap string string) now0 :
  schema_valid t = true →
  patch_accepted body = true →
  schema_valid (patched t body now0) = true.
Proof.
  unfold patch_accepted, schema_valid, patched.
  cbn [title description status userId].
  destruct (body !! "title"%string), (body !! "description"%string),
    (body !! "status"%string); cbn [fmap option_fmap option_map from_option default negb];
    intros Hvalid Haccepted;
    unfold valid_title, valid_description, valid_status in *; split_andb.
Qed.

Lemma handle_keeps_valid db env req :
  store_valid (tasks db) → store_valid (tasks (handle db env req).1).
Proof.
  intros Hvalid.
  destruct (handle_outcome db env req) as [[-> _] | (u & _ & Hu & -> & _)];
    [ done | ].
  destruct (run_handler_writes (tasks db) env u (route req))
    as [-> | [(body & Hroute & Hnone & Hout)
        | [(id & body & o & t & _ & _ & Howned & Hacc & ->)
        | (id & o & t & _ & _ & _ & ->)]]]; cbn [fst].
  - done.
  - revert Hout. rewrite Hroute. cbn [run_handler].
    destruct (create_task_cases (tasks db) u body env Hu)
      as [Hrejected Haccepted].
    destruct (create_accepted body) eqn:Hacc.
    + intros ->. cbn [fst]. intros o t.
      destruct (decide (o = new_id env)) as [->|Hne].
      * rewrite lookup_insert_eq. intros [= <-]. by apply created_valid.
      * rewrite lookup_insert_ne by done. apply Hvalid.
    + destruct (Hrejected eq_refl) as [_ Hcode]. intros Hout.
      rewrite Hout in Hcode. discriminate Hcode.
  - apply lookup_owned_Some in Howned as [Hstored _]. intros o' t'.
    destruct (decide (o' = o)) as [->|Hne].
    + rewrite lookup_insert_eq. intros [= <-].
      apply patched_valid; [ by apply (Hvalid o) | done ].
    + rewrite lookup_insert_ne by done. apply Hvalid.
  - intros o' t' Hstored.
    apply lookup_delete_Some in Hstored as [_ Hstored]. by apply (Hvalid o').
Qed.

(** X13: starting from no tasks, after any run of requests every stored
    task passes the validators of its schema: its title and description
    are not empty and within 200 and 2000 characters, its status is one of
    the four enum values and its owner is not empty.  More generally every
    request keeps a valid collection valid. *)
Theorem stored_tasks_are_valid reqs :
  (∀ db, store_valid (tasks db) → store_valid (tasks (run db reqs)))
  ∧ ∀ o t, tasks (run db_empty reqs) !! o = Some t →
      title t ≠ ""%string ∧ (String.length (title t) ≤ 200)%nat
      ∧ description t ≠ ""%string ∧ (String.length (description t) ≤ 2000)%nat
      ∧ status t ∈ TaskStatus_values
      ∧ userId t ≠ ""%string.
Proof.
  assert (Hrun : ∀ db, store_valid (tasks db) → store_valid (tasks (run db reqs))).
  { induction reqs as [|[env req] reqs IH]; intros db Hvalid; [ done | ].
    cbn [run]. apply IH. by apply handle_keeps_valid. }
  split; [ exact Hrun | ].
  intros o t Hstored.
  assert (Hvalid : schema_valid t = true).
  { apply (Hrun db_empty) in Hstored; [ done | ].
    intros o' t'. cbn. by rewrite lookup_empty. }
  unfold schema_valid, valid_title, valid_description, valid_status,
    valid_userId, includes in Hvalid.
  split_andb.
  repeat split;
    try (by intros Hempty;
         match goal with H : truthy _ = true |- _ =>
           rewrite Hempty in H; discriminate H end).
  - by apply Nat.leb_le.
  - by apply Nat.leb_le.
  - match goal with
    | H : bool_decide _ = true |- _ => exact (bool_decide_eq_true_1 _ H)
    end.
Qed.

(** ** Updating and reading back *)

(** X14: for a caller whose token is resolved, an update request has
    exactly these outcomes.  A body PATCH does not accept, or a malformed
    identifier, is answered 400 and nothing changes; an accepted body for
    an identifier that names no task of the caller is answered 404 and
    nothing changes; otherwise the task is replaced by its patched
    version (given fields overwritten with their trimmed values, the
    others kept, [updatedAt] set to the current time) and the reply is 200
    with the document as it is now stored. *)
Theorem update_outcomes db env u id (body : gmap string string) :
  truthy (trim u) = true →
  let out := handle db env (as_user u (PATCH_task id body)) in
  match patch_accepted body, castObjectId id with
  | true, Some o =>
      match lookup_owned (tasks db) o u with
      | Some t =>
          out.2 = {| code := 200;
                     payload := SendData (o, patched t body (now env)) |}
          ∧ tasks out.1 = <[o := patched t body (now env)]> (tasks db)
      | None =>
          out.2 = {| code := 404;
                     payload := SendError "NotFoundError"
                                  (Some "Task not found"%string) |}
          ∧ tasks out.1 = tasks db
      end
  | _, _ => code out.2 = 400 ∧ tasks out.1 = tasks db
  end.
Proof.
  intros Htrim. to_handler Htrim (eq_refl (Ok ())).
  destruct (update_task_outcome (tasks db) u id body env)
    as [r Hr [Hacc | Hcast] | o Hcast Hnone Hacc | o t Hcast Howned Hacc];
    cbn [fst snd].
  - by rewrite Hacc.
  - rewrite Hcast. by destruct (patch_accepted body).
  - by rewrite Hacc, Hcast, Hnone.
  - by rewrite Hacc, Hcast, Howned.
Qed.

Lemma update_outcomes_witness :
  (handle db_one env_later
     (as_user "u1" (PATCH_task id_one {[ "status"%string := "Done"%string ]}))).2
  = {| code := 200;
       payload := SendData (1%N, {| title := "A"; description := "B";
                                    status := "Done"; userId := "u1";
                                    createdAt := 100; updatedAt := 200 |}) |}.
Proof.
  exact (proj1 (update_outcomes db_one env_later "u1" id_one
                  {[ "status"%string := "Done"%string ]} eq_refl)).
Defined.

(** X15: update then read: when an update request is answered 200 with a
    document, a get-one request by the same caller for the same identifier
    is answered 200 with the same document. *)
Theorem update_then_get db env env' u id (body : gmap string string) d :
  (handle db env (as_user u (PATCH_task id body))).2
  = {| code := 200; payload := SendData d |} →
  (handle (handle db env (as_user u (PATCH_task id body))).1 env'
     (as_user u (GET_task id))).2
  = {| code := 200; payload := SendData d |}.
Proof.
  destruct (authMiddleware (users db) (Some u) (now env))
    as [users1 [u'|r]] eqn:Hauth.
  - destruct (authMiddleware_bound _ _ _ _ _ Hauth) as [[= <-] Hagain].
    rewrite (handle_bound db env (as_user u (PATCH_task id body)) users1 u
               eq_refl Hauth).
    cbn [route as_user run_handler fst snd].
    destruct (update_task_outcome (tasks db) u id body env)
      as [r Hr _ | o _ _ _ | o t Hcast Howned _]; cbn [fst snd].
    + intros ->. discriminate Hr.
    + discriminate.
    + intros [= <-].
      rewrite (handle_bound
                 {| tasks := <[o := patched t body (now env)]> (tasks db);
                    users := users1 |}
                 env' (as_user u (GET_task id)) users1 u
                 eq_refl (Hagain (now env'))).
      cbn [route as_user run_handler tasks snd].
      rewrite get_task_outcome, Hcast.
      apply lookup_owned_Some in Howned as [_ Howner].
      unfold lookup_owned. rewrite lookup_insert_eq.
      by rewrite decide_True.
  - rewrite (handle_replied db env (as_user u (PATCH_task id body)) users1 r
               eq_refl Hauth).
    apply authMiddleware_replied in Hauth as [_ [Hr | Hr]];
      cbn [snd]; intros ->; discriminate Hr.
Qed.

Lemma update_then_get_witness :
  let body : gmap string string := {[ "title"%string := "New"%string ]} in
  (handle (handle db_one env_later (as_user "u1" (PATCH_task id_one body))).1
     env_later (as_user "u1" (GET_task id_one))).2
  = {| code := 200;
       payload := SendData (1%N, {| title := "New"; description := "B";
                                    status := "To do"; userId := "u1";
                                    createdAt := 100; updatedAt := 200 |}) |}.
Proof.
  intros body.
  by apply (update_then_get db_one env_later env_later "u1" id_one body).
Defined.

Lemma patched_twice t (body : gmap string string) now0 now1 :
  patched (patched t body now0) body now1 = patched t body now1.
Proof.
  unfold patched. cbn [title description status userId createdAt].
  by destruct (body !! "title"%string), (body !! "description"%string),
    (body !! "status"%string).
Qed.

Lemma update_task_applied coll u id o t (body : gmap string string) env :
  patch_accepted body = true →
  castObjectId id = Some o →
  lookup_owned coll o u = Some t →
  respond coll (update_task coll u id body env)
  = (<[o := patched t body (now env)]> coll,
     {| code := 200; payload := SendData (o, patched t body (now env)) |}).
Proof.
  intros Hacc Hcast Howned.
  destruct (update_task_outcome coll u id body env)
    as [r _ [Hrej | Hmal] | o' Hcast' Hnone _ | o' t' Hcast' Howned' _];
    congruence.
Qed.

(** X16: repeating an update that was answered 200, with the same body,
    is answered 200 again with the same document except for [updatedAt],
    which is the time of the second request. *)
Theorem update_twice db env env' u id (body : gmap string string) d :
  (handle db env (as_user u (PATCH_task id body))).2
  = {| code := 200; payload := SendData d |} →
  (handle (handle db env (as_user u (PATCH_task id body))).1 env'
     (as_user u (PATCH_task id body))).2
  = {| code := 200;
       payload := SendData (d.1, {| title := title d.2;
                                    description := description d.2;
                                    status := status d.2;
                                    userId := userId d.2;
                                    createdAt := createdAt d.2;
                                    updatedAt := now env' |}) |}.
Proof.
  destruct (authMiddleware (users db) (Some u) (now env))
    as [users1 [u'|r]] eqn:Hauth.
  - destruct (authMiddleware_bound _ _ _ _ _ Hauth) as [[= <-] Hagain].
    rewrite (handle_bound db env (as_user u (PATCH_task id body)) users1 u
               eq_refl Hauth).
    cbn [route as_user run_handler fst snd].
    destruct (update_task_outcome (tasks db) u id body env)
      as [r Hr _ | o _ _ _ | o t Hcast Howned Hacc]; cbn [fst snd].
    + intros ->. discriminate Hr.
    + discriminate.
    + intros [= <-].
      rewrite (handle_bound
                 {| tasks := <[o := patched t body (now env)]> (tasks db);
                    users := users1 |}
                 env' (as_user u (PATCH_task id body)) users1 u
                 eq_refl (Hagain (now env'))).
      cbn [route as_user run_handler tasks snd fst].
      apply lookup_owned_Some in Howned as [_ Howner].
      rewrite (update_task_applied _ u id o (patched t body (now env)) body env'
                 Hacc Hcast).
      * cbn [snd]. by rewrite patched_twice.
      * apply lookup_owned_Some. by rewrite lookup_insert_eq.
  - rewrite (handle_replied db env (as_user u (PATCH_task id body)) users1 r
               eq_refl Hauth).
    apply authMiddleware_replied in Hauth as [_ [Hr | Hr]];
      cbn [snd]; intros ->; discriminate Hr.
Qed.

Lemma update_twice_witness :
  let body : gmap string string := {[ "title"%string := " New "%string ]} in
  (handle (handle db_one env_later (as_user "u1" (PATCH_task id_one body))).1
     {| new_id := 3%N; now := 300 |} (as_user "u1" (PATCH_task id_one body))).2
  = {| code := 200;
       payload := SendData (1%N, {| title := "New"; description := "B";
                                    status := "To do"; userId := "u1";
                                    createdAt := 100; updatedAt := 300 |}) |}.
Proof.
  intros body.
  by apply (update_twice db_one env_later {| new_id := 3%N; now := 300 |}
              "u1" id_one body
              (1%N, {| title := "New"; description := "B"; status := "To do";
                       userId := "u1"; createdAt := 100; updatedAt := 200 |})).
Defined.

(** ** Creation time and repeated deletes *)

Lemma handle_keeps_created db env req o c :
  new_id env ≠ o →
  created_at_or_gone o c (tasks db) →
  created_at_or_gone o c (tasks (handle db env req).1).
Proof.
  intros Hfresh Hinv.
  destruct (handle_outcome db env req) as [[-> _] | (u & _ & _ & -> & _)];
    [ done | ].
  destruct (run_handler_writes (tasks db) env u (route req))
    as [-> | [(body & _ & _ & ->)
        | [(id & body & o' & t' & _ & _ & Howned & _ & ->)
        | (id & o' & t' & _ & _ & _ & ->)]]]; cbn [fst].
  - done.
  - intros t. rewrite lookup_insert_ne by done. apply Hinv.
  - apply lookup_owned_Some in Howned as [Hstored _]. intros t.
    destruct (decide (o = o')) as [->|Hne].
    + rewrite lookup_insert_eq. intros [= <-].
      unfold patched. cbn [createdAt]. by apply Hinv.
    + rewrite lookup_insert_ne by done. apply Hinv.
  - intros t Hstored.
    apply lookup_delete_Some in Hstored as [_ Hstored]. by apply Hinv.
Qed.

(** X17: the [createdAt] of a task is the time of the request that
    created it, and no run of later requests changes it while the task is
    stored (the store issues the task's identifier to no later insert). *)
Theorem creation_time_is_fixed db env u (body : gmap string string)
    (reqs : list (Env * Request)) :
  let out := handle db env (as_user u (POST_tasks body)) in
  code out.2 = 201 →
  Forall (λ er : Env * Request, new_id er.1 ≠ new_id env) reqs →
  ∀ t, tasks (run out.1 reqs) !! new_id env = Some t → createdAt t = now env.
Proof.
  cbn zeta. intros Hcode Hfresh.
  assert (Hcreated : created_at_or_gone (new_id env) (now env)
                       (tasks (handle db env (as_user u (POST_tasks body))).1)).
  { destruct (handle_outcome db env (as_user u (POST_tasks body)))
      as [[_ Hrefused] | (u' & _ & _ & Htasks & Hreply)].
    - rewrite Hcode in Hrefused.
      by apply (bool_decide_eq_false_1 (201 ∈ [400; 401; 500])) in Hrefused.
    - rewrite Htasks. rewrite Hreply in Hcode. revert Hcode.
      cbn [route as_user run_handler].
      destruct (create_task_outcome (tasks db) u' body env)
        as [r Hr | r Hr _ _ | _ _]; cbn [fst snd]; [ congruence .. | ].
      intros _ t. rewrite lookup_insert_eq. by intros [= <-]. }
  clear Hcode. revert Hcreated.
  generalize (handle db env (as_user u (POST_tasks body))).1.
  induction Hfresh as [|[env' req] reqs Hhead _ IH]; intros db' Hinv.
  - exact Hinv.
  - cbn [run]. apply IH. by apply handle_keeps_created.
Qed.

Lemma creation_time_is_fixed_witness :
  let later :=
    [ (env_later,
       as_user "u1" (PATCH_task id_one
                       {[ "title"%string := "Renamed"%string;
                          "createdAt"%string := "0"%string ]})) ] in
  ∃ t, tasks (run (handle db_empty env_first
                     (as_user "u1" (POST_tasks body_A))).1 later)
         !! 1%N = Some t
       ∧ updatedAt t = 200
       ∧ createdAt t = 100.
Proof.
  intros later.
  exists {| title := "Renamed"; description := "B"; status := "To do";
            userId := "u1"; createdAt := 100; updatedAt := 200 |}.
  split; [ reflexivity | ]. split; [ reflexivity | ].
  apply (creation_time_is_fixed db_empty env_first "u1" body_A later).
  - reflexivity.
  - repeat constructor; discriminate.
  - reflexivity.
Defined.

(** X18: a delete that was answered 204 cannot be repeated: the same
    request again is answered 404 and changes nothing. *)
Theorem delete_twice db env env' u id :
  let out := handle db env (as_user u (DELETE_task id)) in
  code out.2 = 204 →
  (handle out.1 env' (as_user u (DELETE_task id))).2
  = {| code := 404;
       payload := SendError "NotFoundError" (Some "Task not found"%string) |}
  ∧ tasks (handle out.1 env' (as_user u (DELETE_task id))).1 = tasks out.1.
Proof.
  cbn zeta.
  destruct (authMiddleware (users db) (Some u) (now env))
    as [users1 [u'|r]] eqn:Hauth.
  - destruct (authMiddleware_bound _ _ _ _ _ Hauth) as [[= <-] Hagain].
    rewrite (handle_bound db env (as_user u (DELETE_task id)) users1 u
               eq_refl Hauth).
    cbn [route as_user run_handler fst snd].
    rewrite delete_task_outcome.
    destruct (castObjectId id) as [o|] eqn:Hcast; [ | discriminate ].
    destruct (lookup_owned (tasks db) o u); [ | discriminate ].
    intros _. cbn [fst snd].
    rewrite (handle_bound {| tasks := delete o (tasks db); users := users1 |}
               env' (as_user u (DELETE_task id)) users1 u eq_refl
               (Hagain (now env'))).
    cbn [route as_user run_handler tasks fst snd].
    by rewrite delete_task_outcome, Hcast, lookup_owned_delete.
  - rewrite (handle_replied db env (as_user u (DELETE_task id)) users1 r
               eq_refl Hauth).
    apply authMiddleware_replied in Hauth as [_ [Hr | Hr]];
      cbn [snd]; rewrite Hr; discriminate.
Qed.

Lemma delete_twice_witness :
  code (handle db_one env_later (as_user "u1" (DELETE_task id_one))).2 = 204
  ∧ code (handle (handle db_one env_later
                    (as_user "u1" (DELETE_task id_one))).1
            env_later (as_user "u1" (DELETE_task id_one))).2 = 404.
Proof.
  split; [ reflexivity | ].
  destruct (delete_twice db_one env_later env_later "u1" id_one eq_refl)
    as [Hreply _].
  cbv zeta in Hreply. by rewrite Hreply.
Defined.

(** ** Listing, in general *)

Lemma includes_truthy s : includes TaskStatus_values s = true → truthy s = true.
Proof.
  unfold includes. intros Hin. apply bool_decide_eq_true_1 in Hin.
  unfold TaskStatus_values in Hin. cbn [map TaskStatus_value] in Hin.
  repeat (apply elem_of_cons in Hin as [-> | Hin]; [ reflexivity | ]).
  by apply elem_of_nil in Hin.
Qed.

Lemma list_tasks_data coll u (query : gmap string string) data pg :
  list_tasks coll u query = Ok {| code := 200; payload := SendPage data pg |} →
  let filter_status :=
    if truthy_opt (query !! "status"%string) then query !! "status"%string
    else None in
  data `sublist_of` merge_sort newer (matching coll u filter_status)
  ∧ total pg = Z.of_nat (length (matching coll u filter_status)).
Proof.
  unfold list_tasks, Task_find, Task_countDocuments. cbn zeta.
  destruct (js_mul _ _) as [s| |]; [ | discriminate .. ].
  destruct (parseInt (default "50"%string _)) as [l| |]; [ | discriminate .. ].
  destruct (s <? 0); [ discriminate | ]. cbn [bind].
  intros [= <- <-]. split; [ | reflexivity ].
  destruct (l =? 0).
  - apply sublist_drop.
  - etrans; [ apply sublist_take | apply sublist_drop ].
Qed.

(** X19: whatever the page and the page size, a list request answered
    200 returns only tasks that are stored, owned by the caller and, when
    a status filter is given, in that status; no task is returned twice;
    and [total] counts all the caller's tasks that match the filter, not
    only the returned page. *)
Theorem list_only_own db env req (query : gmap string string) data pg :
  route req = GET_tasks query →
  (handle db env req).2 = {| code := 200; payload := SendPage data pg |} →
  ∃ u, x_user_id req = Some u
       ∧ (∀ o t, (o, t) ∈ data →
            tasks db !! o = Some t ∧ userId t = u
            ∧ ∀ s, query !! "status"%string = Some s → status t = s)
       ∧ NoDup data
       ∧ total pg
         = Z.of_nat (length (matching (tasks db) u (query !! "status"%string))).
Proof.
  intros Hroute.
  destruct (validate_schema (route req)) as [[]|e] eqn:Hschema.
  2:{ rewrite (handle_schema_rejected db env req e Hschema). discriminate. }
  destruct (authMiddleware (users db) (x_user_id req) (now env))
    as [users1 [u|r]] eqn:Hauth.
  2:{ rewrite (handle_replied db env req users1 r Hschema Hauth).
      apply authMiddleware_replied in Hauth as [_ [Hr | Hr]];
        cbn [snd]; intros ->; discriminate Hr. }
  rewrite (handle_bound db env req users1 u Hschema Hauth).
  apply authMiddleware_bound in Hauth as [Hheader _].
  rewrite Hroute in Hschema |- *. cbn [run_handler snd].
  destruct (list_tasks (tasks db) u query) as [rep|e] eqn:Hlist; cbn [bind respond snd].
  2:{ destruct (list_tasks_cases (tasks db) u query) as [(? & ? & Hok) | Hthrown];
        [ congruence | ].
      rewrite Hlist in Hthrown. injection Hthrown as ->. discriminate. }
  intros ->. apply list_tasks_data in Hlist as [Hsub Htotal].
  assert (Hfilter : (if truthy_opt (query !! "status"%string)
                     then query !! "status"%string else None)
                    = query !! "status"%string).
  { unfold validate_schema in Hschema.
    destruct (query !! "status"%string) as [s|]; [ | done ].
    destruct (includes TaskStatus_values s) eqn:Hin; [ | discriminate ].
    cbn. by rewrite (includes_truthy s Hin). }
  rewrite Hfilter in Hsub, Htotal.
  exists u. split; [ done | ]. split; [ | split; [ | done ] ].
  - intros o t Hin.
    apply (elem_of_sublist _ _ _ Hin) in Hsub. clear Hin. rename Hsub into Hin.
    rewrite merge_sort_Permutation in Hin.
    apply list_elem_of_filter in Hin as [[Howner Hstatus] Hstored].
    apply elem_of_map_to_list in Hstored. cbn [snd] in Howner, Hstatus.
    split; [ done | ]. split; [ done | ].
    intros s Hs. by rewrite Hs in Hstatus.
  - eapply sublist_NoDup; [ | exact Hsub ].
    rewrite merge_sort_Permutation.
    apply NoDup_filter, NoDup_map_to_list.
Qed.

Lemma list_only_own_witness :
  let req :=
    as_user "u1" (GET_tasks {[ "limit"%string := "2"%string;
                               "status"%string := "Done"%string ]}) in
  ∃ data pg,
    (handle db_four env_later req).2
    = {| code := 200; payload := SendPage data pg |}
    ∧ (∀ o t, (o, t) ∈ data →
         tasks db_four !! o = Some t ∧ userId t = "u1"%string)
    ∧ total pg = 1.
Proof.
  intros req.
  eexists _, _. split; [ reflexivity | ].
  destruct (list_only_own db_four env_later req _ _ _ eq_refl eq_refl)
    as (u & [= <-] & Hown & _ & Htotal).
  split; [ | exact Htotal ].
  intros o t Hin. destruct (Hown o t Hin) as (Hstored & Howner & _). by split.
Defined.

Lemma list_tasks_page coll u (query : gmap string string) st k P :
  (if truthy_opt (query !! "status"%string) then query !! "status"%string
   else None) = st →
  parseInt (default "1"%string (query !! "page"%string)) = Num k →
  parseInt (default "50"%string (query !! "limit"%string)) = Num P →
  1 ≤ k →
  1 ≤ P →
  ∃ pages,
    list_tasks coll u query
    = Ok {| code := 200;
            payload :=
              SendPage (take (Z.to_nat P)
                          (drop (Z.to_nat ((k - 1) * P))
                             (merge_sort newer (matching coll u st))))
                {| page := Num k; limit := Num P;
                   total := Z.of_nat (length (matching coll u st));
                   totalPages := Num pages |} |}
    ∧ (pages - 1) * P < Z.of_nat (length (matching coll u st)) ≤ pages * P.
Proof.
  intros Hst Hpage Hlimit Hk HP. unfold list_tasks.
  rewrite Hst, Hpage, Hlimit. cbn [js_sub js_mul].
  unfold Task_find, Task_countDocuments.
  assert (Hskip : ((k - 1) * P <? 0) = false) by (apply Z.ltb_ge; nia).
  assert (Hzero : (P =? 0) = false) by (apply Z.eqb_neq; lia).
  rewrite Hskip, Hzero, (Z.abs_eq P) by lia. cbn [bind].
  destruct (ceil_div (Z.of_nat (length (matching coll u st))) (Num P))
    as [pages| |] eqn:Hceil;
    [ | unfold ceil_div in Hceil; rewrite Hzero in Hceil; discriminate .. ].
  exists pages. split; [ done | ].
  apply ceil_div_spec; [ lia | exact Hceil ].
Qed.

(** X20: with a status filter that is one of the enum values, a list
    request whose page and page size parse to [k >= 1] and [P >= 1]
    returns the [P]-slice at offset [(k - 1) * P] of the caller's tasks in
    that status, newest first, and [total] and [totalPages] count those
    tasks only.  The page, the page size, the offset and the count are
    safe integers, so that the handler's arithmetic on numbers is the
    arithmetic on integers. *)
Theorem list_page_filtered db env u (query : gmap string string) s k P :
  truthy (trim u) = true →
  query !! "status"%string = Some s →
  s ∈ TaskStatus_values →
  parseInt (default "1"%string (query !! "page"%string)) = Num k →
  parseInt (default "50"%string (query !! "limit"%string)) = Num P →
  1 ≤ k ≤ MAX_SAFE_INTEGER →
  1 ≤ P ≤ MAX_SAFE_INTEGER →
  (k - 1) * P ≤ MAX_SAFE_INTEGER →
  let selected :=
    filter (λ d : N * ITask, userId d.2 = u ∧ status d.2 = s)
      (map_to_list (tasks db)) in
  Z.of_nat (length selected) ≤ MAX_SAFE_INTEGER →
  ∃ sorted pages,
    (handle db env (as_user u (GET_tasks query))).2
    = {| code := 200;
         payload :=
           SendPage (take (Z.to_nat P) (drop (Z.to_nat ((k - 1) * P)) sorted))
             {| page := Num k; limit := Num P;
                total := Z.of_nat (length selected);
                totalPages := Num pages |} |}
    ∧ sorted ≡ₚ selected
    ∧ StronglySorted newer sorted
    ∧ (pages - 1) * P < Z.of_nat (length selected) ≤ pages * P.
Proof.
  intros Htrim Hstatus Hvalid Hpage Hlimit Hk HP Hoffset. cbn zeta.
  intros Hcount.
  assert (Hin : includes TaskStatus_values s = true)
    by by apply bool_decide_eq_true_2.
  assert (Hschema : validate_schema (GET_tasks query) = Ok ()).
  { unfold validate_schema. by rewrite Hstatus, Hin. }
  to_handler Htrim Hschema.
  destruct (list_tasks_page (tasks db) u query (Some s) k P)
    as (pages & -> & Hpages); try done; try lia.
  { rewrite Hstatus. cbn. by rewrite (includes_truthy s Hin). }
  exists (merge_sort newer (matching (tasks db) u (Some s))), pages.
  split; [ done | ].
  split; [ apply merge_sort_Permutation | ].
  split; [ apply StronglySorted_merge_sort; apply _ | done ].
Qed.

Lemma list_page_filtered_witness :
  let query : gmap string string :=
    {[ "status"%string := "To do"%string; "limit"%string := "1"%string ]} in
  ∃ sorted pages,
    (handle db_four env_later (as_user "u1" (GET_tasks query))).2
    = {| code := 200;
         payload := SendPage (take 1 (drop 0 sorted))
                      {| page := Num 1; limit := Num 1; total := 1;
                         totalPages := Num pages |} |}
    ∧ sorted ≡ₚ [(1%N, task_A)].
Proof.
  intros query.
  destruct (list_page_filtered db_four env_later "u1" query "To do" 1 1)
    as (sorted & pages & Hreply & Hperm & _);
    [ reflexivity | reflexivity | compute_done | reflexivity | reflexivity
    | compute_done | compute_done | compute_done | compute_done | ].
  exists sorted, pages. by split.
Defined.

(** X21: a list request that gives neither [page] nor [limit] nor
    [status] is served as page 1 of size 50: it returns the 50 newest of
    the caller's tasks, or all of them when there are fewer. *)
Theorem list_defaults db env u (query : gmap string string) :
  truthy (trim u) = true →
  query !! "status"%string = None →
  query !! "page"%string = None →
  query !! "limit"%string = None →
  let owned :=
    filter (λ d : N * ITask, userId d.2 = u) (map_to_list (tasks db)) in
  ∃ sorted pages,
    (handle db env (as_user u (GET_tasks query))).2
    = {| code := 200;
         payload :=
           SendPage (take 50 sorted)
             {| page := Num 1; limit := Num 50;
                total := Z.of_nat (length owned);
                totalPages := Num pages |} |}
    ∧ sorted ≡ₚ owned
    ∧ StronglySorted newer sorted
    ∧ ((length owned ≤ 50)%nat → take 50 sorted = sorted).
Proof.
  intros Htrim Hstatus Hpage Hlimit. cbn zeta.
  assert (Hschema : validate_schema (GET_tasks query) = Ok ()).
  { unfold validate_schema. by rewrite Hstatus. }
  to_handler Htrim Hschema.
  destruct (list_tasks_page (tasks db) u query None 1 50)
    as (pages & -> & _); try done.
  { by rewrite Hstatus. }
  { by rewrite Hpage. }
  { by rewrite Hlimit. }
  rewrite matching_owned.
  exists (merge_sort newer
            (filter (λ d : N * ITask, userId d.2 = u) (map_to_list (tasks db)))),
    pages.
  split; [ done | ].
  split; [ apply merge_sort_Permutation | ].
  split; [ apply StronglySorted_merge_sort; apply _ | ].
  intros Hfew. apply take_ge. by rewrite merge_sort_Permutation.
Qed.

Lemma list_defaults_witness :
  ∃ sorted pages,
    (handle db_four env_later (as_user "u1" (GET_tasks ∅))).2
    = {| code := 200;
         payload := SendPage sorted
                      {| page := Num 1; limit := Num 50; total := 3;
                         totalPages := Num pages |} |}
    ∧ StronglySorted newer sorted.
Proof.
  destruct (list_defaults db_four env_later "u1" ∅)
    as (sorted & pages & Hreply & Hperm & Hsorted & Hall);
    [ reflexivity .. | ].
  exists sorted, pages. split; [ | exact Hsorted ].
  rewrite <- (Hall ltac:(compute_done)) at 1. exact Hreply.
Defined.

(** X22: a list request whose [status] parameter is not one of the enum
    values is refused with 400 by the route's schema before the identity
    is looked at: with or without a token, and without creating an
    identity record. *)
Theorem invalid_status_filter_is_400 db env req (query : gmap string string) s :
  route req = GET_tasks query →
  query !! "status"%string = Some s →
  s ∉ TaskStatus_values →
  (handle db env req).1 = db ∧ code (handle db env req).2 = 400.
Proof.
  intros Hroute Hstatus Hinvalid.
  rewrite (handle_schema_rejected db env req SchemaValidationError); [ done | ].
  rewrite Hroute. unfold validate_schema. rewrite Hstatus.
  unfold includes. by rewrite bool_decide_eq_false_2.
Qed.

Lemma invalid_status_filter_is_400_witness :
  let req :=
    {| x_user_id := None;
       route := GET_tasks {[ "status"%string := "done"%string ]} |} in
  (handle db_one env_later req).1 = db_one
  ∧ code (handle db_one env_later req).2 = 400.
Proof.
  intros req.
  apply (invalid_status_filter_is_400 db_one env_later req
           {[ "status"%string := "done"%string ]} "done");
    [ reflexivity | reflexivity | compute_done ].
Defined.

(** ** The error handler *)

(** X23: whatever is thrown, the error handler's reply is an error
    envelope with a label that is not empty and a status that is not 0; a
    [CastError] or a [ValidationError] is answered 400 even when it
    carries another status; and a reply with status 500 never carries the
    error's own message, only the fixed text. *)
Theorem errorHandler_envelope e :
  ∃ label msg,
    payload (errorHandler e) = SendError label msg
    ∧ label ≠ ""%string
    ∧ code (errorHandler e) ≠ 0
    ∧ (name e = "CastError"%string ∨ name e = "ValidationError"%string →
       code (errorHandler e) = 400)
    ∧ (code (errorHandler e) = 500 →
       msg = Some "An unexpected error occurred"%string)
    ∧ (code (errorHandler e) ≠ 500 →
       msg = if decide (name e = "CastError"%string)
             then Some "Invalid task ID format"%string
             else message e).
Proof.
  unfold errorHandler.
  assert (Hlabel : (if truthy (name e) then name e
                    else "Internal Server Error"%string) ≠ ""%string).
  { destruct (name e); [ done | by cbn ]. }
  destruct (decide (name e = "CastError"%string)) as [Hcast|Hcast].
  { eexists _, _. cbn [code payload]. repeat split; try done. }
  destruct (decide (name e = "ValidationError"%string)) as [Hval|Hval].
  { eexists _, _. cbn [code payload]. repeat split; try done. }
  destruct (statusCode e) as [c|]; [ destruct (c =? 0) eqn:Hzero | ].
  - eexists _, _. cbn [code payload]. repeat split; try done.
    by intros [? | ?].
  - apply Z.eqb_neq in Hzero.
    eexists _, _. cbn [code payload]. repeat split; try done.
    + by intros [? | ?].
    + intros ->. reflexivity.
    + intros Hne. by rewrite (proj2 (Z.eqb_neq c 500)).
  - eexists _, _. cbn [code payload]. repeat split; try done.
    by intros [? | ?].
Qed.

(** ** Creating and deleting *)

(** X24: create then delete: when a create request is answered 201 with a
    document, a delete request by the same caller for the identifier of
    that document is answered 204 and leaves the task collection exactly
    as it was before the create. *)
Theorem create_then_delete db env env' u (body : gmap string string) id d :
  castObjectId id = Some d.1 →
  (handle db env (as_user u (POST_tasks body))).2
  = {| code := 201; payload := SendData d |} →
  (handle (handle db env (as_user u (POST_tasks body))).1 env'
     (as_user u (DELETE_task id))).2
  = {| code := 204; payload := SendNothing |}
  ∧ tasks (handle (handle db env (as_user u (POST_tasks body))).1 env'
             (as_user u (DELETE_task id))).1
    = tasks db.
Proof.
  intros Hcast.
  destruct (authMiddleware (users db) (Some u) (now env))
    as [users1 [u'|r]] eqn:Hauth.
  - destruct (authMiddleware_bound _ _ _ _ _ Hauth) as [[= <-] Hagain].
    rewrite (handle_bound db env (as_user u (POST_tasks body)) users1 u
               eq_refl Hauth).
    cbn [route as_user run_handler fst snd].
    destruct (create_task_outcome (tasks db) u body env)
      as [r Hr | r Hr _ _ | _ Hnone]; cbn [fst snd].
    + intros ->. discriminate Hr.
    + intros ->. discriminate Hr.
    + intros [= <-]. cbn [fst] in Hcast.
      rewrite (handle_bound
                 {| tasks := <[new_id env := created u body (now env)]> (tasks db);
                    users := users1 |}
                 env' (as_user u (DELETE_task id)) users1 u
                 eq_refl (Hagain (now env'))).
      cbn [route as_user run_handler tasks fst snd].
      rewrite delete_task_outcome, Hcast.
      unfold lookup_owned. rewrite lookup_insert_eq, decide_True by done.
      cbn [fst snd]. by rewrite delete_insert_id.
  - rewrite (handle_replied db env (as_user u (POST_tasks body)) users1 r
               eq_refl Hauth).
    apply authMiddleware_replied in Hauth as [_ [Hr | Hr]];
      cbn [snd]; intros ->; discriminate Hr.
Qed.

Lemma create_then_delete_witness :
  (handle (handle db_empty env_first (as_user "u1" (POST_tasks body_A))).1
     env_later (as_user "u1" (DELETE_task id_one))).2
  = {| code := 204; payload := SendNothing |}
  ∧ tasks (handle (handle db_empty env_first
                     (as_user "u1" (POST_tasks body_A))).1
             env_later (as_user "u1" (DELETE_task id_one))).1
    = tasks db_empty.
Proof.
  by apply (create_then_delete db_empty env_first env_later "u1" body_A id_one
              (1%N, task_A)).
Defined.
